(** * clever_api: the request layer, the auth flow and the subscription queries

    A shallow embedding of [custom_components/clever_api/clever/clever.py]:
    the classes [Clever], [Auth] and [Subscription].  Python values are
    modelled by [Py.value], exceptions by [Py.exn], and a coroutine by a
    function from the machine state to an outcome and a new state: state
    changes made before an exception is raised persist, as in Python. *)

From Stdlib Require Import ZArith String Ascii List Bool Lia.
From stdpp Require Import base list strings.
Import ListNotations.

Local Set Warnings "-register-all".
#[local] Arguments String.append !s1 s2 : simpl nomatch.
Local Open Scope string_scope.
Local Open Scope list_scope.
Local Open Scope Z_scope.

(** ** Python values and exceptions *)

Module Py.

(** What [response.json()] can produce: JSON decoded into Python objects.
    A [dict] keeps its insertion order, so it is an association list. *)
Inductive value : Type :=
| VNone
| VBool (b : bool)
| VInt (n : Z)
| VStr (s : string)
| VList (items : list value)
| VDict (entries : list (string * value)).

Definition dict : Type := list (string * value).

(** The pydantic classes of [.models] that [parse_obj] is called on. *)
Inductive model_class : Type :=
| SendEmail | VerifyLink | ObtainUserSecret | ObtainApiToken
| UserInfo | Transactions | EvseInfo | Energitillaeg.

Inductive exn : Type :=
| TimeoutError                        (* asyncio.TimeoutError, as async_timeout raises it *)
| CleverConnectionError (msg : string)
| CleverError (msg : value)           (* the message is whatever object the code passes *)
| KeyError (key : string)
| IndexError (msg : string)
| TypeError (msg : string)
| ValueError (msg : string)
| RuntimeError (msg : string)
| AttributeError (msg : string)
| ValidationError (cls : model_class) (* pydantic *)
| ClientResponseError (status : Z)    (* aiohttp, from raise_for_status *)
| ForeignError (cls : string) (timeout_kind : bool) (msg : string)
    (* any other exception of a library that derives from Exception;
       [timeout_kind] tells whether its class derives from
       asyncio.TimeoutError *)
| CancelledError                      (* asyncio.CancelledError: a BaseException *)
| KeyboardInterrupt.                  (* a BaseException too *)

(** [isinstance(e, asyncio.TimeoutError)] *)
Definition is_TimeoutError (e : exn) : bool :=
  match e with
  | TimeoutError => true
  | ForeignError _ k _ => k
  | _ => false
  end.

(** [isinstance(e, Exception)]: what [except Exception] catches.  The
    cancellation of a task and the interrupt are outside it. *)
Definition is_Exception (e : exn) : bool :=
  match e with
  | CancelledError | KeyboardInterrupt => false
  | _ => true
  end.

Inductive result (A : Type) : Type :=
| Ok (a : A)
| Raise (e : exn).
Arguments Ok {A} a.
Arguments Raise {A} e.

(** [d.get(key)], first binding wins *)
Fixpoint dict_get (key : string) (d : dict) : option value :=
  match d with
  | [] => None
  | (k, v) :: rest => if String.eqb k key then Some v else dict_get key rest
  end.

(** [d[key] = v]: an existing key keeps its place, a new one goes last *)
Fixpoint dict_set (key : string) (v : value) (d : dict) : dict :=
  match d with
  | [] => [(key, v)]
  | (k, v0) :: rest =>
      if String.eqb k key then (k, v) :: rest else (k, v0) :: dict_set key v rest
  end.

(** [obj[key]] with a [str] key *)
Definition getitem (obj : value) (key : string) : result value :=
  match obj with
  | VDict d =>
      match dict_get key d with
      | Some v => Ok v
      | None => Raise (KeyError key)
      end
  | VNone => Raise (TypeError "'NoneType' object is not subscriptable")
  | VBool _ => Raise (TypeError "'bool' object is not subscriptable")
  | VInt _ => Raise (TypeError "'int' object is not subscriptable")
  | VStr _ => Raise (TypeError "string indices must be integers")
  | VList _ => Raise (TypeError "list indices must be integers or slices, not str")
  end.

(** [obj[key] = v] with a [str] key *)
Definition setitem (obj : value) (key : string) (v : value) : result value :=
  match obj with
  | VDict d => Ok (VDict (dict_set key v d))
  | VNone => Raise (TypeError "'NoneType' object does not support item assignment")
  | VBool _ => Raise (TypeError "'bool' object does not support item assignment")
  | VInt _ => Raise (TypeError "'int' object does not support item assignment")
  | VStr _ => Raise (TypeError "'str' object does not support item assignment")
  | VList _ => Raise (TypeError "list indices must be integers or slices, not str")
  end.

(** [obj == "literal"] *)
Definition eq_str (obj : value) (lit : string) : bool :=
  match obj with
  | VStr s => String.eqb s lit
  | _ => false
  end.

(** [obj is None] *)
Definition is_None (obj : value) : bool :=
  match obj with
  | VNone => true
  | _ => false
  end.

(** [bool(data)] for the optional request body: [None] and [{}] are falsy *)
Definition truthy (data : option dict) : bool :=
  match data with
  | Some (_ :: _) => true
  | _ => false
  end.

(** [str(x)] for the [api_token] attribute: [None] prints as its name *)
Definition str_of (x : option string) : string :=
  match x with
  | Some s => s
  | None => "None"
  end.

(** *** [str.format] with the single keyword argument [api_token]

    Literal text, doubled braces and plain replacement fields, [{name}], are
    computed here.  A field text runs to its matching closing brace.  What
    Python makes of a field with a conversion, a format specification or an
    attribute or index access ([{api_token!r}], [{api_token:>8}],
    [{api_token.x}]) is not computed: it is the parameter [rich], given the
    text of the field and the argument. *)

Inductive scan_mode : Type :=
| Text                               (* copying literal text *)
| SawOpen                            (* one opening brace read *)
| Field (depth : nat) (name : string)  (* inside a replacement field, [depth]
                                          braces opened within it *)
| SawClose.                          (* one closing brace read in literal text *)

Definition all_digits (s : string) : bool :=
  forallb (fun c => (48 <=? nat_of_ascii c)%nat && (nat_of_ascii c <=? 57)%nat)
          (list_ascii_of_string s).

Definition plain_field_char (c : ascii) : bool :=
  negb (Ascii.eqb c "!" || Ascii.eqb c ":" || Ascii.eqb c "." || Ascii.eqb c "["
        || Ascii.eqb c "{" || Ascii.eqb c "}").

Definition lookup_field (rich : string -> option string -> result string)
    (name : string) (api_token : option string) : result string :=
  if forallb plain_field_char (list_ascii_of_string name) then
    if String.eqb name "api_token" then Ok (str_of api_token)
    else if all_digits name
         then Raise (IndexError "Replacement index out of range for positional args tuple")
         else Raise (KeyError name)
  else rich name api_token.

Definition emit (text : string) (r : result string) : result string :=
  match r with
  | Ok out => Ok (text +:+ out)
  | Raise e => Raise e
  end.

Fixpoint scan (rich : string -> option string -> result string)
    (api_token : option string) (m : scan_mode) (s : string) : result string :=
  match s with
  | EmptyString =>
      match m with
      | Text => Ok EmptyString
      | SawOpen => Raise (ValueError "Single '{' encountered in format string")
      | Field _ _ => Raise (ValueError "expected '}' before end of string")
      | SawClose => Raise (ValueError "Single '}' encountered in format string")
      end
  | String c rest =>
      match m with
      | Text =>
          if Ascii.eqb c "{" then scan rich api_token SawOpen rest
          else if Ascii.eqb c "}" then scan rich api_token SawClose rest
          else emit (String c EmptyString) (scan rich api_token Text rest)
      | SawOpen =>
          if Ascii.eqb c "{" then emit "{" (scan rich api_token Text rest)
          else if Ascii.eqb c "}" then
            match lookup_field rich EmptyString api_token with
            | Ok text => emit text (scan rich api_token Text rest)
            | Raise e => Raise e
            end
          else scan rich api_token (Field O (String c EmptyString)) rest
      | Field depth name =>
          if Ascii.eqb c "}" then
            match depth with
            | O =>
                match lookup_field rich name api_token with
                | Ok text => emit text (scan rich api_token Text rest)
                | Raise e => Raise e
                end
            | S inner =>
                scan rich api_token (Field inner (name +:+ String c EmptyString)) rest
            end
          else if Ascii.eqb c "{" then
            scan rich api_token (Field (S depth) (name +:+ String c EmptyString)) rest
          else scan rich api_token (Field depth (name +:+ String c EmptyString)) rest
      | SawClose =>
          if Ascii.eqb c "}" then emit "}" (scan rich api_token Text rest)
          else Raise (ValueError "Single '}' encountered in format string")
      end
  end.

(** [template.format(api_token=api_token)] *)
Definition str_format (rich : string -> option string -> result string)
    (template : string) (api_token : option string) : result string :=
  scan rich api_token Text template.

End Py.
Export Py.


(** ** The world outside the client: sessions, the clock, the backend *)

Module Aio.

(** An [aiohttp.ClientSession] object; [closed] is its property of that name. *)
Record ClientSession : Type := { closed : bool }.

(** What the client does to the outside, in the order it happens. *)
Inductive event : Type :=
| EvNewSession (sid : nat)        (* ClientSession() gave the session [sid] *)
| EvRequest (sid : nat) (method url : string) (json : option dict) (headers : dict)
                                  (* session.request(method, url, json=.., headers=..) *)
| EvClose (sid : nat)             (* session.close() was called *)
| EvRelease (sid : nat).          (* the connector of the session was released *)

Inductive log_level : Type := DEBUG | ERROR.

(** The records handed to [LOGGER], before formatting. *)
Inductive log_text : Type :=
| Request_URL (url : string)
| Request_headers (headers : dict)
| Request_data (data : option dict)
| Response_status (status : Z)
| Response_JSON (body : value)
| Request_failed (e : exn)
| Message (msg : string).

(** An awaited operation of the library: it suspends and resolves after some
    time, with a value or an exception; or it suspends and never resolves; or
    it is over without suspending at all, as when aiohttp refuses a URL
    before any input or output. *)
Inductive await (A : Type) : Type :=
| Resolves (after : N) (outcome : result A)
| Pending
| Immediate (outcome : result A).
Arguments Resolves {A} after outcome.
Arguments Pending {A}.
Arguments Immediate {A} outcome.

(** An [aiohttp.ClientResponse]: the status line, and what reading the body
    with [response.json()] will give. *)
Record ClientResponse : Type := { status : Z; body : await value }.

Record world : Type := {
  now : Z;                           (* the event loop's clock *)
  sessions : list ClientSession;     (* the session objects, by identity *)
  events : list event;
  log : list (log_level * log_text)
}.

Definition set_now (t : Z) (w : world) : world :=
  {| now := t; sessions := sessions w; events := events w; log := log w |}.

Definition set_sessions (l : list ClientSession) (w : world) : world :=
  {| now := now w; sessions := l; events := events w; log := log w |}.

Definition add_event (e : event) (w : world) : world :=
  {| now := now w; sessions := sessions w; events := events w ++ [e]; log := log w |}.

Definition add_log (lvl : log_level) (t : log_text) (w : world) : world :=
  {| now := now w; sessions := sessions w; events := events w; log := log w ++ [(lvl, t)] |}.

(** [session.closed]; the sessions a state names are in the store. *)
Definition is_closed (sid : nat) (w : world) : bool :=
  match sessions w !! sid with
  | Some s => closed s
  | None => false
  end.

End Aio.
Export Aio.

(** ** Coroutines: state and exceptions

    [M T A] is a coroutine of an object of class [T] returning an [A]: it
    reads and writes the fields of [self] and the world, and either returns
    or raises. *)

Definition M (T A : Type) : Type := T * world -> result A * (T * world).

#[global] Instance M_ret {T} : MRet (M T) :=
  fun A a st => (Ok a, st).

#[global] Instance M_bind {T} : MBind (M T) :=
  fun A B k m st =>
    match m st with
    | (Ok a, st') => k a st'
    | (Raise e, st') => (Raise e, st')
    end.

Definition raise {T A} (e : exn) : M T A :=
  fun st => (Raise e, st).

Definition lift_result {T A} (r : result A) : M T A :=
  fun st => (r, st).

Definition get_self {T} : M T T :=
  fun st => (Ok (fst st), st).

Definition put_self {T} (o : T) : M T unit :=
  fun st => (Ok tt, (o, snd st)).

Definition get_world {T} : M T world :=
  fun st => (Ok (snd st), st).

Definition modify_world {T} (f : world -> world) : M T unit :=
  fun st => (Ok tt, (fst st, f (snd st))).

(** [try: body  except Exception as e: handler e]: what is not an
    [Exception] is not caught. *)
Definition try_except {T A} (body : M T A) (handler : exn -> M T A) : M T A :=
  fun st =>
    match body st with
    | (Ok a, st') => (Ok a, st')
    | (Raise e, st') => if is_Exception e then handler e st' else (Raise e, st')
    end.

Definition LOGGER_debug {T} (t : log_text) : M T unit := modify_world (add_log DEBUG t).
Definition LOGGER_error {T} (t : log_text) : M T unit := modify_world (add_log ERROR t).

(** [ClientSession()]: a fresh, open session *)
Definition ClientSession_new {T} : M T nat :=
  w ← get_world;
  let sid := length (sessions w) in
  modify_world (fun w => add_event (EvNewSession sid)
                           (set_sessions (sessions w ++ [{| closed := false |}]) w));;
  mret sid.

(** [await op] inside [async with async_timeout.timeout(..)] whose deadline is
    [deadline].  The timeout cancels the task where it is suspended: an
    operation that does not suspend is not touched, even when the deadline
    has passed already; one that suspends is cancelled unless it resolves
    before the deadline.  The event loop delivers the cancellation at the
    deadline or [late] after it. *)
Definition await_before {T A} (deadline : Z) (late : N) (op : await A) : M T A :=
  w ← get_world;
  match op with
  | Immediate outcome => lift_result outcome
  | Resolves after outcome =>
      if now w + Z.of_N after <? deadline
      then modify_world (set_now (now w + Z.of_N after));; lift_result outcome
      else modify_world (set_now (Z.max (now w) deadline + Z.of_N late));;
           raise TimeoutError
  | Pending =>
      modify_world (set_now (Z.max (now w) deadline + Z.of_N late));; raise TimeoutError
  end.

(** [await session.close()]: aiohttp releases the connector of a session that
    is not closed yet, and does nothing on a closed one. *)
Definition session_close {T} (sid : nat) : M T unit :=
  modify_world (add_event (EvClose sid));;
  w ← get_world;
  if is_closed sid w then mret tt
  else modify_world (fun w => add_event (EvRelease sid)
                                (set_sessions (<[sid := {| closed := true |}]> (sessions w)) w)).

(** [response.raise_for_status()]: aiohttp raises from status 400 on. *)
Definition raise_for_status {T} (response : ClientResponse) : M T unit :=
  if 400 <=? status response then raise (ClientResponseError (status response))
  else mret tt.

Definition METH_GET : string := "GET".
Definition METH_POST : string := "POST".

(** ** Result models

    Modelled from the spec: the pydantic classes of [.models] ([SendEmail],
    [VerifyLink], [ObtainUserSecret], [ObtainApiToken], [UserInfo],
    [Transactions], [EvseInfo], [Energitillaeg]) are not part of the source
    file.  The spec describes each result as a direct deserialization of a
    JSON payload shape into a typed structure and leaves schema validation
    to the data-modelling library.  So a model is its class and the entries
    of the payload it was parsed from; an attribute the code reads
    ([data], [status_message], [secret_code]) is the entry of that name, and
    reads [None] when the payload has none.  Which payloads a class accepts
    is a parameter, [accepts], of the development. *)
Record model : Type := { class_of : model_class; fields : dict }.

(** The entry [name] of a payload, [None] when it has none. *)
Definition entry (d : dict) (name : string) : value :=
  match dict_get name d with
  | Some v => v
  | None => VNone
  end.

(** [model.name] *)
Definition attr (m : model) (name : string) : value :=
  entry (fields m) name.

(** [q[key]] on the multidict of a URL's query: the first value of the key. *)
Fixpoint query_getitem (q : list (string * string)) (key : string) : result string :=
  match q with
  | [] => Raise (KeyError key)
  | (k, v) :: rest => if String.eqb k key then Ok v else query_getitem rest key
  end.

(** ** The classes *)

(** [@dataclass class Clever] *)
Record Clever : Type := {
  request_timeout : Z;
  session : option nat;        (* the identity of a ClientSession, or None *)
  _close_session : bool
}.

(** [Clever(request_timeout=.., session=..)], the flag at its default *)
Definition Clever_new (request_timeout : Z) (session : option nat) : Clever :=
  {| request_timeout := request_timeout; session := session; _close_session := false |}.

(** [@dataclass class Subscription(Clever)]: the fields of [Clever] and
    [api_token], whose default is [None]. *)
Record Subscription : Type := {
  base : Clever;
  api_token : option string
}.

(** [Subscription(request_timeout=.., session=..)], [api_token] never set *)
Definition Subscription_new (request_timeout : Z) (session : option nat) : Subscription :=
  {| base := Clever_new request_timeout session; api_token := None |}.

(** An inherited coroutine of [Clever] running on a [Subscription]. *)
Definition inherited {A} (m : M Clever A) : M Subscription A :=
  fun st =>
    let '(r, (c, w)) := m (base (fst st), snd st) in
    (r, ({| base := c; api_token := api_token (fst st) |}, w)).

(** ** What a caller can do with an object *)

(** The coroutines of an [Auth] object, its own and the inherited ones. *)
Inductive operation : Type :=
| Call_request (url method : string) (data : option dict)
| Call_close
| Call_aenter
| Call_aexit (exc : option exn)
| Call_send_auth_email (email : string)
| Call_verify_link (auth_link email : string)
| Call_obtain_user_secret (email first_name last_name secret_code : string)
| Call_obtain_api_token (user_secret email : string).

(** The four queries of a [Subscription] object. *)
Inductive query : Type :=
| Get_user_info
| Get_transactions (box_id : option string)
| Get_evse_info
| Get_energitillaeg.

(** The coroutines of a [Subscription] object. *)
Inductive sub_operation : Type :=
| Sub_request (url method : string) (data : option dict)
| Sub_close
| Sub_aenter
| Sub_aexit (exc : option exn)
| Sub_query (q : query).

(** How often [session.close()] was called on a session, and how often its
    connector was released. *)
Definition is_close_of (sid : nat) (e : event) : bool :=
  match e with
  | EvClose s => Nat.eqb s sid
  | _ => false
  end.

Definition is_release_of (sid : nat) (e : event) : bool :=
  match e with
  | EvRelease s => Nat.eqb s sid
  | _ => false
  end.

Definition close_calls (sid : nat) (evs : list event) : nat :=
  length (List.filter (is_close_of sid) evs).

Definition releases (sid : nat) (evs : list event) : nat :=
  length (List.filter (is_release_of sid) evs).

(** The object made its session itself: [ClientSession()] gave it. *)
Definition self_created (c : Clever) (w : world) : Prop :=
  exists sid, session c = Some sid /\ In (EvNewSession sid) (events w).

(** The invariant of the ownership flag. *)
Definition flag_tells_ownership (c : Clever) (w : world) : Prop :=
  _close_session c = true <-> self_created c w.

(** The entry [key] of the [data] payload of a response, if there is one. *)
Definition data_entry (d : dict) (key : string) : option value :=
  match dict_get "data" d with
  | Some (VDict payload) => dict_get key payload
  | _ => None
  end.

(** The [result] of the [verificationResponse] inside the [data] payload. *)
Definition nested_result (d : dict) : option value :=
  match data_entry d "verificationResponse" with
  | Some (VDict verification) => dict_get "result" verification
  | _ => None
  end.

(** A piece of a template without braces. *)
Definition brace_free (s : string) : bool :=
  forallb (fun c => negb (Ascii.eqb c "{" || Ascii.eqb c "}")) (list_ascii_of_string s).

(** ** A small concrete setting, for running the definitions *)

Module Demo.

(** A query splitter for well-formed links without escapes: the text after
    the first question mark, cut at ampersands and at the first equals sign. *)
Fixpoint split_on (sep : ascii) (s : string) : list string :=
  match s with
  | EmptyString => [EmptyString]
  | String c rest =>
      if Ascii.eqb c sep then EmptyString :: split_on sep rest
      else match split_on sep rest with
           | [] => [String c EmptyString]
           | piece :: pieces => String c piece :: pieces
           end
  end.

Fixpoint cut_at (sep : ascii) (s : string) : string * string :=
  match s with
  | EmptyString => (EmptyString, EmptyString)
  | String c rest =>
      if Ascii.eqb c sep then (EmptyString, rest)
      else let '(l, r) := cut_at sep rest in (String c l, r)
  end.

Definition URL_query (link : string) : result (list (string * string)) :=
  let '(_, q) := cut_at "?" link in
  if String.eqb q EmptyString then Ok []
  else Ok (List.map (cut_at "=") (split_on "&" q)).

Definition accept_all (cls : model_class) (d : dict) : bool := true.

(** A backend that answers every call at once with status 200 and [body]. *)
Definition answering (body : value) (history : list event) : await ClientResponse :=
  Resolves 1 (Ok {| status := 200; body := Resolves 1 (Ok body) |}).

(** A backend that never answers. *)
Definition silent (history : list event) : await ClientResponse := Pending.

(** An event loop that delivers a cancellation right at the deadline. *)
Definition punctual (history : list event) : N := 0%N.

(** The templates of the examples have plain fields only, so this stand-in
    for the fields with a conversion or a format specification is never
    consulted. *)
Definition plain_only (field : string) (api_token : option string) : result string :=
  Raise (ValueError "field outside the examples").

Definition w0 : world := {| now := 0; sessions := []; events := []; log := [] |}.

(** A world in which the caller has made one session, number 0. *)
Definition w1 : world :=
  {| now := 0; sessions := [{| closed := false |}]; events := []; log := [] |}.

End Demo.

(** ** The client *)

Section Client.

(** The constants of [..const] and [.urls], which are not in the source file. *)
Variable AUTHORIZATION_HEADER : string.
Variables SEND_AUTH_EMAIL VERIFY_LINK OBTAIN_USER_SECRET OBTAIN_API_TOKEN : string.
Variables GET_USER_INFO GET_TRANSACTIONS GET_EVSE_INFO GET_ENERGITILLAEG : string.

(** [URL(link).query] of yarl: the query parameters in order, or the
    exception the constructor raises on a link it rejects. *)
Variable URL_query : string -> result (list (string * string)).

(** pydantic's validation of a payload against a class. *)
Variable accepts : model_class -> dict -> bool.

(** The backend and the network: what a call of [session.request] will be
    answered with, given everything the client has done so far (the call
    itself is the last event). *)
Variable backend : list event -> await ClientResponse.

(** The event loop: how long after the deadline it delivers the cancellation
    of a call that has timed out. *)
Variable lateness : list event -> N.

(** [str.format] on the replacement fields that have a conversion, a format
    specification or an attribute or index access. *)
Variable rich_field : string -> option string -> result string.

(** [template.format(api_token=api_token)] *)
Definition format (template : string) (api_token : option string) : result string :=
  str_format rich_field template api_token.

(** [cls.parse_obj(obj)] *)
Definition parse_obj (cls : model_class) (obj : value) : result model :=
  match obj with
  | VDict d =>
      if accepts cls d then Ok {| class_of := cls; fields := d |}
      else Raise (ValidationError cls)
  | _ => Raise (ValidationError cls)
  end.

(** [await session.request(method, url, json=data, headers=headers)]: aiohttp
    refuses a closed session before anything else; otherwise the answer is the
    backend's, which covers what aiohttp itself raises without suspending (a
    URL it rejects) as an [Immediate] answer. *)
Definition session_request {T} (deadline : Z) (sid : nat) (method url : string)
    (data : option dict) (headers : dict) : M T ClientResponse :=
  modify_world (add_event (EvRequest sid method url data headers));;
  w ← get_world;
  if is_closed sid w then raise (RuntimeError "Session is closed")
  else await_before deadline (lateness (events w)) (backend (events w)).

(** The body of the [try] statement of [_request]. *)
Definition attempt (url method : string) (data : option dict) (headers : dict)
    : M Clever value :=
  self ← get_self;
  w ← get_world;
  let deadline := now w + request_timeout self in
  match session self with
  | None => raise (AttributeError "'NoneType' object has no attribute 'request'")
  | Some sid =>
      response ← session_request deadline sid method url data headers;
      raise_for_status response;;
      LOGGER_debug (Response_status (status response));;
      w ← get_world;
      response_json ← await_before deadline (lateness (events w)) (body response);
      LOGGER_debug (Response_JSON response_json);;
      mret response_json
  end.

Definition timeout_msg : string := "Timeout while connecting to Clever backend".

(** The two [except] clauses of [_request]. *)
Definition translate (exception : exn) : M Clever value :=
  if is_TimeoutError exception then
    let msg := timeout_msg in
    LOGGER_error (Message msg);;
    raise (CleverConnectionError msg)
  else
    LOGGER_error (Request_failed exception);;
    raise exception.

Definition request_headers : dict := [("authorization", VStr AUTHORIZATION_HEADER)].

(** [if self.session is None: ...] *)
Definition ensure_session : M Clever unit :=
  self ← get_self;
  match session self with
  | None =>
      sid ← ClientSession_new;
      put_self {| request_timeout := request_timeout self;
                  session := Some sid;
                  _close_session := _close_session self |};;
      self ← get_self;
      put_self {| request_timeout := request_timeout self;
                  session := session self;
                  _close_session := true |}
  | Some _ => mret tt
  end.

(** [_request] up to its [try] statement. *)
Definition entering (url : string) (data : option dict) : M Clever unit :=
  let headers := request_headers in
  LOGGER_debug (Request_URL url);;
  LOGGER_debug (Request_headers headers);;
  (if truthy data then LOGGER_debug (Request_data data) else mret tt);;
  ensure_session.

(** [Clever._request] *)
Definition _request (url method : string) (data : option dict) : M Clever value :=
  entering url data;;
  try_except (attempt url method data request_headers) translate.

(** [Clever.close] *)
Definition close : M Clever unit :=
  self ← get_self;
  match session self with
  | Some sid => if _close_session self then session_close sid else mret tt
  | None => mret tt
  end.

(** [Clever.__aenter__] *)
Definition __aenter__ : M Clever Clever :=
  get_self.

(** [Clever.__aexit__]: the exception details it is given are not looked at *)
Definition __aexit__ (_exc_inf : option exn) : M Clever unit :=
  close.

(** [async with client: body], as the language runs it: [__aenter__], the
    body, then [__aexit__] with the exception the body raised, if any; that
    exception goes on, since [__aexit__] returns [None]. *)
Definition exit_after {A} (body : M Clever A) : M Clever A :=
  fun st =>
    match body st with
    | (Ok a, st') => (__aexit__ None;; mret a) st'
    | (Raise e, st') => (__aexit__ (Some e);; raise e) st'
    end.

Definition async_with {A} (body : Clever -> M Clever A) : M Clever A :=
  entered ← __aenter__;
  exit_after (body entered).

(** *** [class Auth(Clever)] *)

(** [Auth.send_auth_email] *)
Definition send_auth_email (email : string) : M Clever model :=
  let url := SEND_AUTH_EMAIL +:+ "?email=" +:+ email in
  resp ← _request url METH_GET None;
  lift_result (parse_obj SendEmail resp).

(** [URL(auth_link).query["secretCode"]] *)
Definition secret_code_of (auth_link : string) : result string :=
  match URL_query auth_link with
  | Ok q => query_getitem q "secretCode"
  | Raise e => Raise e
  end.

(** [Auth.verify_link] *)
Definition verify_link (auth_link email : string) : M Clever model :=
  secret_code ← lift_result (secret_code_of auth_link);
  let url := VERIFY_LINK +:+ "?token=" +:+ secret_code +:+ "&email=" +:+ email in
  resp ← _request url METH_GET None;
  resp ← lift_result (setitem resp "secret_code" (VStr secret_code));
  model ← lift_result (parse_obj VerifyLink resp);
  result ← lift_result (getitem (attr model "data") "result");
  if negb (eq_str result "Verified") then
    msg ← lift_result (getitem (attr model "data") "result");
    raise (CleverError msg)
  else mret model.

(** [Auth.obtain_user_secret] *)
Definition obtain_user_secret (email first_name last_name secret_code : string)
    : M Clever model :=
  let url := OBTAIN_USER_SECRET in
  let payload := [("email", VStr email);
                  ("firstName", VStr first_name);
                  ("lastName", VStr last_name);
                  ("token", VStr secret_code)] in
  resp ← _request url METH_POST (Some payload);
  model ← lift_result (parse_obj ObtainUserSecret resp);
  user_secret ← lift_result (getitem (attr model "data") "userSecret");
  if eq_str user_secret "null" then
    verification ← lift_result (getitem (attr model "data") "verificationResponse");
    msg ← lift_result (getitem verification "result");
    raise (CleverError msg)
  else mret model.

(** [Auth.obtain_api_token] *)
Definition obtain_api_token (user_secret email : string) : M Clever model :=
  let url := OBTAIN_API_TOKEN +:+ "?secret=" +:+ user_secret +:+ "&email=" +:+ email in
  resp ← _request url METH_GET None;
  model ← lift_result (parse_obj ObtainApiToken resp);
  if is_None (attr model "data") then
    let msg := attr model "status_message" in
    raise (CleverError msg)
  else mret model.

(** *** [class Subscription(Clever)] *)

(** [Subscription.get_user_info] *)
Definition get_user_info : M Subscription model :=
  self ← get_self;
  url ← lift_result (format GET_USER_INFO (api_token self));
  resp ← inherited (_request url METH_GET None);
  model ← lift_result (parse_obj UserInfo resp);
  mret model.

(** [Subscription.get_transactions] *)
Definition get_transactions (box_id : option string) : M Subscription model :=
  self ← get_self;
  url ← lift_result (format GET_TRANSACTIONS (api_token self));
  resp ← inherited (_request url METH_GET None);
  model ← lift_result (parse_obj Transactions resp);
  mret model.

(** [Subscription.get_evse_info] *)
Definition get_evse_info : M Subscription model :=
  self ← get_self;
  url ← lift_result (format GET_EVSE_INFO (api_token self));
  resp ← inherited (_request url METH_GET None);
  model ← lift_result (parse_obj EvseInfo resp);
  mret model.

(** [Subscription.get_energitillaeg] *)
Definition get_energitillaeg : M Subscription model :=
  self ← get_self;
  url ← lift_result (format GET_ENERGITILLAEG (api_token self));
  resp ← inherited (_request url METH_GET None);
  model ← lift_result (parse_obj Energitillaeg resp);
  mret model.

(** *** Running operations *)

Definition perform (o : operation) : M Clever unit :=
  match o with
  | Call_request url method data => _request url method data;; mret tt
  | Call_close => close
  | Call_aenter => __aenter__;; mret tt
  | Call_aexit exc => __aexit__ exc
  | Call_send_auth_email email => send_auth_email email;; mret tt
  | Call_verify_link auth_link email => verify_link auth_link email;; mret tt
  | Call_obtain_user_secret email first_name last_name secret_code =>
      obtain_user_secret email first_name last_name secret_code;; mret tt
  | Call_obtain_api_token user_secret email =>
      obtain_api_token user_secret email;; mret tt
  end.

(** The state after a sequence of operations, whatever each one returned or
    raised. *)
Fixpoint run (ops : list operation) (st : Clever * world) : Clever * world :=
  match ops with
  | [] => st
  | o :: rest => run rest (snd (perform o st))
  end.

Definition url_template (q : query) : string :=
  match q with
  | Get_user_info => GET_USER_INFO
  | Get_transactions _ => GET_TRANSACTIONS
  | Get_evse_info => GET_EVSE_INFO
  | Get_energitillaeg => GET_ENERGITILLAEG
  end.

Definition ask (q : query) : M Subscription model :=
  match q with
  | Get_user_info => get_user_info
  | Get_transactions box_id => get_transactions box_id
  | Get_evse_info => get_evse_info
  | Get_energitillaeg => get_energitillaeg
  end.

Definition sub_perform (o : sub_operation) : M Subscription unit :=
  match o with
  | Sub_request url method data => inherited (_request url method data);; mret tt
  | Sub_close => inherited close
  | Sub_aenter => inherited __aenter__;; mret tt
  | Sub_aexit exc => inherited (__aexit__ exc)
  | Sub_query q => ask q;; mret tt
  end.

Fixpoint sub_run (ops : list sub_operation) (st : Subscription * world)
    : Subscription * world :=
  match ops with
  | [] => st
  | o :: rest => sub_run rest (snd (sub_perform o st))
  end.

(** [close()] called [n] times in a row *)
Fixpoint close_times (n : nat) : M Clever unit :=
  match n with
  | O => mret tt
  | S k => close;; close_times k
  end.

(** The state in which [_request] enters its [try] statement. *)
Definition at_try (url : string) (data : option dict) (st : Clever * world)
    : Clever * world :=
  snd (entering url data st).

(** The answer of the backend to the call that [_request] makes from [st]. *)
Definition answer (url method : string) (data : option dict) (st : Clever * world)
    : await ClientResponse :=
  let st1 := at_try url data st in
  match session (fst st1) with
  | Some sid =>
      backend (events (snd st1) ++ [EvRequest sid method url data request_headers])
  | None => Pending
  end.

(** The session the call goes through is open. *)
Definition session_open (url : string) (data : option dict) (st : Clever * world) : bool :=
  let st1 := at_try url data st in
  match session (fst st1) with
  | Some sid => negb (is_closed sid (snd st1))
  | None => false
  end.

(** The call completes before the time allowed is over: the response comes
    in time and, when its status lets the body be read, so does the body.  What
    comes without suspending is in time. *)
Definition in_time (budget : Z) (op : await ClientResponse) : bool :=
  match op with
  | Pending => false
  | Resolves t1 (Raise _) => Z.of_N t1 <? budget
  | Resolves t1 (Ok response) =>
      (Z.of_N t1 <? budget)
      && ((400 <=? status response)
          || match body response with
             | Pending => false
             | Resolves t2 _ => Z.of_N t1 + Z.of_N t2 <? budget
             | Immediate _ => true
             end)
  | Immediate (Raise _) => true
  | Immediate (Ok response) =>
      (400 <=? status response)
      || match body response with
         | Pending => false
         | Resolves t2 _ => Z.of_N t2 <? budget
         | Immediate _ => true
         end
  end.

(** What [_request] logs before its [try] statement. *)
Definition entry_log (url : string) (data : option dict) : list (log_level * log_text) :=
  [(DEBUG, Request_URL url); (DEBUG, Request_headers request_headers)]
  ++ (if truthy data then [(DEBUG, Request_data data)] else []).

(** The request body that [obtain_user_secret] sends. *)
Definition user_secret_payload (email first_name last_name secret_code : string)
    : list (string * value) :=
  [("email", VStr email); ("firstName", VStr first_name);
   ("lastName", VStr last_name); ("token", VStr secret_code)].

(** A [Subscription] seen as the [Clever] it extends. *)
Definition as_Clever (st : Subscription * world) : Clever * world :=
  (base (fst st), snd st).

(** What an operation can do to the object and to the sessions it made:
    nothing, or give an object without session a fresh one that it owns. *)
Definition keeps_or_creates (st st' : Clever * world) : Prop :=
  (fst st' = fst st
   /\ forall sid, In (EvNewSession sid) (events (snd st'))
                  <-> In (EvNewSession sid) (events (snd st)))
  \/ (session (fst st) = None
      /\ _close_session (fst st') = true
      /\ exists sid, session (fst st') = Some sid
                     /\ In (EvNewSession sid) (events (snd st'))).

(** The operation suspends the task that awaits it. *)
Definition suspends {A} (op : await A) : bool :=
  match op with
  | Immediate _ => false
  | _ => true
  end.

(** The calls of [session.request] among the events. *)
Definition is_request (e : event) : bool :=
  match e with
  | EvRequest _ _ _ _ _ => true
  | _ => false
  end.

(** How many sessions were created, and how many errors were logged. *)
Definition is_creation (e : event) : bool :=
  match e with
  | EvNewSession _ => true
  | _ => false
  end.

Definition creations (evs : list event) : nat :=
  length (List.filter is_creation evs).

Definition is_error (r : log_level * log_text) : bool :=
  match fst r with
  | ERROR => true
  | DEBUG => false
  end.

Definition errors_logged (l : list (log_level * log_text)) : nat :=
  length (List.filter is_error l).

(** The class a query parses its response into. *)
Definition model_of (q : query) : model_class :=
  match q with
  | Get_user_info => UserInfo
  | Get_transactions _ => Transactions
  | Get_evse_info => EvseInfo
  | Get_energitillaeg => Energitillaeg
  end.

(** The session an object will send its next request through: the one it
    holds, or the one it is about to create. *)
Definition session_in_use (c : Clever) (w : world) : nat :=
  match session c with
  | Some sid => sid
  | None => length (sessions w)
  end.

(** The events of one call of [_request]: the creation of a session, if the
    object has none, and the call of [session.request]. *)
Definition request_trace (c : Clever) (w : world) (method url : string)
    (data : option dict) : list event :=
  match session c with Some _ => [] | None => [EvNewSession (session_in_use c w)] end
  ++ [EvRequest (session_in_use c w) method url data request_headers].

(** ** Properties *)

(** *** Dictionaries *)

Lemma dict_get_set_same (key : string) (v : value) (d : dict) :
  dict_get key (dict_set key v d) = Some v.
Proof.
  induction d as [|[k v0] rest IH]; simpl.
  - now rewrite String.eqb_refl.
  - destruct (String.eqb k key) eqn:E; simpl; rewrite E; auto.
Qed.

Lemma dict_get_set_other (key other : string) (v : value) (d : dict) :
  other <> key -> dict_get other (dict_set key v d) = dict_get other d.
Proof.
  intros Hne. induction d as [|[k v0] rest IH]; simpl.
  - destruct (String.eqb key other) eqn:E; auto.
    apply String.eqb_eq in E. congruence.
  - destruct (String.eqb k key) eqn:E; simpl.
    + apply String.eqb_eq in E. subst k.
      destruct (String.eqb key other) eqn:E2; auto.
      apply String.eqb_eq in E2. congruence.
    + now rewrite IH.
Qed.

(** *** The steps of a coroutine *)

Ltac unfold_m :=
  unfold mbind, mret, M_bind, M_ret, raise, lift_result, get_self, put_self,
    get_world, modify_world, try_except, LOGGER_debug, LOGGER_error in *.

Lemma bind_ok {T A B} (m : M T A) (k : A -> M T B) st a st' :
  m st = (Ok a, st') -> (m ≫= k) st = k a st'.
Proof. intros H. unfold mbind, M_bind. now rewrite H. Qed.

Lemma entering_with_session url data c w sid :
  session c = Some sid ->
  entering url data (c, w)
  = (Ok tt, (c, {| now := now w; sessions := sessions w; events := events w;
                   log := log w ++ entry_log url data |})).
Proof.
  intros Hs. unfold entering, ensure_session, entry_log. unfold_m.
  destruct (truthy data); simpl; rewrite Hs; simpl;
    unfold add_log; simpl; rewrite <- ?app_assoc; reflexivity.
Qed.

Lemma entering_without_session url data c w :
  session c = None ->
  entering url data (c, w)
  = (Ok tt, ({| request_timeout := request_timeout c;
                session := Some (length (sessions w));
                _close_session := true |},
             {| now := now w;
                sessions := sessions w ++ [{| closed := false |}];
                events := events w ++ [EvNewSession (length (sessions w))];
                log := log w ++ entry_log url data |})).
Proof.
  intros Hs. unfold entering, ensure_session, ClientSession_new, entry_log. unfold_m.
  destruct (truthy data); simpl; rewrite Hs; simpl;
    unfold add_log, add_event, set_sessions; simpl; rewrite <- ?app_assoc; reflexivity.
Qed.


(** *** The call itself *)

Ltac unfold_attempt :=
  unfold attempt, session_request, await_before, raise_for_status; unfold_m; simpl.

Ltac case_step :=
  match goal with
  | |- context [match ?x with _ => _ end] =>
      lazymatch x with
      | context [match _ with _ => _ end] => fail
      | _ => destruct x eqn:?; simpl in *
      end
  end.

Lemma attempt_keeps_self url method data headers st :
  fst (snd (attempt url method data headers st)) = fst st.
Proof.
  destruct st as [c w]. unfold_attempt.
  destruct (session c); simpl; [|reflexivity].
  repeat case_step; reflexivity.
Qed.

Lemma attempt_keeps_sessions url method data headers st :
  sessions (snd (snd (attempt url method data headers st))) = sessions (snd st).
Proof.
  destruct st as [c w]. unfold_attempt.
  destruct (session c); simpl; [|reflexivity].
  repeat case_step; reflexivity.
Qed.

Lemma attempt_calls_once url method data headers c w sid :
  session c = Some sid ->
  events (snd (snd (attempt url method data headers (c, w))))
  = events w ++ [EvRequest sid method url data headers].
Proof.
  intros Hs. unfold_attempt. rewrite Hs; simpl.
  repeat case_step; reflexivity.
Qed.

Lemma attempt_times_out url method data headers c w sid :
  session c = Some sid ->
  is_closed sid w = false ->
  in_time (request_timeout c)
    (backend (events w ++ [EvRequest sid method url data headers])) = false ->
  fst (attempt url method data headers (c, w)) = Raise TimeoutError.
Proof.
  intros Hs Hopen Hlate. unfold_attempt. rewrite Hs; simpl.
  unfold is_closed in *; simpl. rewrite Hopen; simpl.
  unfold in_time in Hlate.
  destruct (backend _) as [t1 [response|e]| |[response|e]]; simpl in *.
  - destruct (Z.ltb_spec (Z.of_N t1) (request_timeout c)) as [H1|H1];
      destruct (Z.ltb_spec (now w + Z.of_N t1) (now w + request_timeout c)); try lia;
      simpl in *; [|reflexivity].
    destruct (400 <=? status response); simpl in *; [discriminate|].
    destruct (body response) as [t2 out| |out]; simpl; [|reflexivity|discriminate].
    destruct (Z.ltb_spec (now w + Z.of_N t1 + Z.of_N t2) (now w + request_timeout c));
      [|reflexivity].
    apply Z.ltb_ge in Hlate. lia.
  - destruct (Z.ltb_spec (Z.of_N t1) (request_timeout c)) as [H1|H1]; [discriminate|].
    destruct (Z.ltb_spec (now w + Z.of_N t1) (now w + request_timeout c)); [lia|reflexivity].
  - reflexivity.
  - destruct (400 <=? status response); simpl in *; [discriminate|].
    destruct (body response) as [t2 out| |out]; simpl; [|reflexivity|discriminate].
    destruct (Z.ltb_spec (now w + Z.of_N t2) (now w + request_timeout c)); [|reflexivity].
    apply Z.ltb_ge in Hlate. lia.
  - discriminate.
Qed.


Lemma entering_returns url data st :
  entering url data st = (Ok tt, at_try url data st).
Proof.
  destruct st as [c w]. unfold at_try.
  destruct (session c) as [sid|] eqn:Hs.
  - now rewrite (entering_with_session url data c w sid Hs).
  - now rewrite (entering_without_session url data c w Hs).
Qed.

Lemma at_try_has_session url data st :
  exists sid, session (fst (at_try url data st)) = Some sid.
Proof.
  destruct st as [c w]. unfold at_try.
  destruct (session c) as [sid|] eqn:Hs.
  - rewrite (entering_with_session url data c w sid Hs). simpl. eauto.
  - rewrite (entering_without_session url data c w Hs). simpl. eauto.
Qed.

Lemma at_try_request_timeout url data st :
  request_timeout (fst (at_try url data st)) = request_timeout (fst st).
Proof.
  destruct st as [c w]. unfold at_try.
  destruct (session c) as [sid|] eqn:Hs.
  - now rewrite (entering_with_session url data c w sid Hs).
  - now rewrite (entering_without_session url data c w Hs).
Qed.

Lemma request_unfold url method data st :
  _request url method data st
  = try_except (attempt url method data request_headers) translate (at_try url data st).
Proof.
  unfold _request. now rewrite (bind_ok _ _ _ _ _ (entering_returns url data st)).
Qed.

Lemma translate_raises exception st :
  fst (translate exception st)
  = Raise (if is_TimeoutError exception then CleverConnectionError timeout_msg
           else exception).
Proof. unfold translate. unfold_m. now destruct (is_TimeoutError exception). Qed.

Lemma translate_keeps exception st :
  fst (snd (translate exception st)) = fst st
  /\ sessions (snd (snd (translate exception st))) = sessions (snd st)
  /\ events (snd (snd (translate exception st))) = events (snd st).
Proof. unfold translate. unfold_m. now destruct (is_TimeoutError exception). Qed.

(** What [_request] gives, from what its [try] body gives. *)
Lemma request_outcome url method data st :
  fst (_request url method data st)
  = match fst (attempt url method data request_headers (at_try url data st)) with
    | Ok v => Ok v
    | Raise e => Raise (if is_TimeoutError e then CleverConnectionError timeout_msg else e)
    end.
Proof.
  rewrite request_unfold. unfold try_except.
  destruct (attempt _ _ _ _ _) as [[v|e] st2]; simpl; [reflexivity|].
  destruct (is_Exception e) eqn:Hcaught; [apply translate_raises|].
  destruct e; try discriminate Hcaught; reflexivity.
Qed.

Lemma request_keeps url method data st :
  fst (snd (_request url method data st)) = fst (at_try url data st)
  /\ sessions (snd (snd (_request url method data st))) = sessions (snd (at_try url data st))
  /\ forall sid, session (fst (at_try url data st)) = Some sid ->
       events (snd (snd (_request url method data st)))
       = events (snd (at_try url data st)) ++ [EvRequest sid method url data request_headers].
Proof.
  rewrite request_unfold. unfold try_except.
  pose proof (attempt_keeps_self url method data request_headers (at_try url data st)) as Hc.
  pose proof (attempt_keeps_sessions url method data request_headers (at_try url data st)) as Hss.
  assert (Hev : forall sid, session (fst (at_try url data st)) = Some sid ->
            events (snd (snd (attempt url method data request_headers (at_try url data st))))
            = events (snd (at_try url data st)) ++ [EvRequest sid method url data request_headers]).
  { intros sid Hs. destruct (at_try url data st) as [c1 w1]. now apply attempt_calls_once. }
  destruct (attempt _ _ _ _ _) as [[v|e] st2]; simpl in *; [auto|].
  destruct (is_Exception e); [|auto].
  destruct (translate_keeps e st2) as (H1 & H2 & H3).
  rewrite H1, H2, H3. auto.
Qed.

(** C4, as the code has it.  A call of [_request] that is not answered
    within [request_timeout] raises [CleverConnectionError] with the fixed
    message "Timeout while connecting to Clever backend".  What is translated
    is the class of the exception: every exception of the call that is an
    [asyncio.TimeoutError], the one of the expiry as well as one a library
    raises within the time allowed, becomes that error; an exception that is
    not a timeout error is raised again unchanged, a value is returned as it
    is, and a [CleverConnectionError] can only come from a timeout error (or be
    one the call raised itself).  Whatever happens, [session.request] is called
    exactly once: nothing is tried again. *)
Theorem request_translates_only_timeouts url method data st :
  (session_open url data st = true ->
   in_time (request_timeout (fst st)) (answer url method data st) = false ->
   fst (_request url method data st) = Raise (CleverConnectionError timeout_msg))
  /\ (forall e,
        fst (attempt url method data request_headers (at_try url data st)) = Raise e ->
        is_TimeoutError e = true ->
        fst (_request url method data st) = Raise (CleverConnectionError timeout_msg))
  /\ (forall e,
        fst (attempt url method data request_headers (at_try url data st)) = Raise e ->
        is_TimeoutError e = false ->
        fst (_request url method data st) = Raise e)
  /\ (forall v,
        fst (attempt url method data request_headers (at_try url data st)) = Ok v ->
        fst (_request url method data st) = Ok v)
  /\ (forall msg,
        fst (_request url method data st) = Raise (CleverConnectionError msg) ->
        exists e,
          fst (attempt url method data request_headers (at_try url data st)) = Raise e
          /\ ((is_TimeoutError e = true /\ msg = timeout_msg)
              \/ e = CleverConnectionError msg))
  /\ (exists sid,
        session (fst (at_try url data st)) = Some sid
        /\ events (snd (snd (_request url method data st)))
           = events (snd (at_try url data st))
             ++ [EvRequest sid method url data request_headers]).
Proof.
  split; [|split; [|split; [|split; [|split]]]].
  - intros Hopen Hlate. rewrite request_outcome.
    unfold session_open, answer in *.
    rewrite <- (at_try_request_timeout url data st) in Hlate.
    destruct (at_try url data st) as [c1 w1]; simpl in *.
    destruct (session c1) as [sid|] eqn:Hs; [|discriminate].
    apply negb_true_iff in Hopen.
    now rewrite (attempt_times_out url method data request_headers c1 w1 sid Hs Hopen Hlate).
  - intros e He Hkind. rewrite request_outcome, He. now rewrite Hkind.
  - intros e He Hkind. rewrite request_outcome, He. now rewrite Hkind.
  - intros v Hv. now rewrite request_outcome, Hv.
  - intros msg H. rewrite request_outcome in H.
    destruct (fst (attempt _ _ _ _ _)) as [v|e]; [discriminate|].
    exists e. split; [reflexivity|].
    destruct (is_TimeoutError e) eqn:Hkind.
    + left. split; [reflexivity|]. congruence.
    + right. congruence.
  - destruct (at_try_has_session url data st) as [sid Hs]. exists sid. split; [exact Hs|].
    now apply request_keeps.
Qed.

(** *** Closing *)

Lemma releases_app sid evs1 evs2 :
  releases sid (evs1 ++ evs2) = (releases sid evs1 + releases sid evs2)%nat.
Proof. unfold releases. now rewrite List.filter_app, length_app. Qed.

Lemma close_calls_app sid evs1 evs2 :
  close_calls sid (evs1 ++ evs2) = (close_calls sid evs1 + close_calls sid evs2)%nat.
Proof. unfold close_calls. now rewrite List.filter_app, length_app. Qed.

Lemma close_of_non_owner c w :
  _close_session c = false -> close (c, w) = (Ok tt, (c, w)).
Proof.
  intros Hflag. unfold close. unfold_m. simpl.
  destruct (session c); [|reflexivity]. now rewrite Hflag.
Qed.

Lemma close_of_owner_open c w sid :
  _close_session c = true -> session c = Some sid ->
  sessions w !! sid = Some {| closed := false |} ->
  close (c, w)
  = (Ok tt, (c, {| now := now w;
                   sessions := <[sid := {| closed := true |}]> (sessions w);
                   events := (events w ++ [EvClose sid]) ++ [EvRelease sid];
                   log := log w |})).
Proof.
  intros Hflag Hs Hopen. unfold close, session_close. unfold_m. simpl.
  rewrite Hs, Hflag. simpl. unfold is_closed. simpl. now rewrite Hopen.
Qed.

Lemma close_of_owner_closed c w sid :
  _close_session c = true -> session c = Some sid ->
  sessions w !! sid = Some {| closed := true |} ->
  close (c, w) = (Ok tt, (c, add_event (EvClose sid) w)).
Proof.
  intros Hflag Hs Hclosed. unfold close, session_close. unfold_m. simpl.
  rewrite Hs, Hflag. simpl. unfold is_closed. simpl. now rewrite Hclosed.
Qed.

Lemma close_times_non_owner n c w :
  _close_session c = false -> close_times n (c, w) = (Ok tt, (c, w)).
Proof.
  intros Hflag. induction n as [|n IH]; simpl; [reflexivity|].
  now rewrite (bind_ok _ _ _ _ _ (close_of_non_owner c w Hflag)).
Qed.

(** Closing a session that is closed already: the call is made, nothing is
    released. *)
Lemma close_times_closed n c w sid :
  _close_session c = true -> session c = Some sid ->
  sessions w !! sid = Some {| closed := true |} ->
  let w' := snd (snd (close_times n (c, w))) in
  releases sid (events w') = releases sid (events w)
  /\ close_calls sid (events w') = (close_calls sid (events w) + n)%nat
  /\ is_closed sid w' = true.
Proof.
  intros Hflag Hs. revert w. induction n as [|n IH]; intros w Hclosed; simpl.
  - unfold is_closed. rewrite Hclosed. repeat split; lia.
  - rewrite (bind_ok _ _ _ _ _ (close_of_owner_closed c w sid Hflag Hs Hclosed)).
    destruct (IH (add_event (EvClose sid) w) Hclosed) as (H1 & H2 & H3).
    simpl in *. rewrite H1, H2, H3.
    rewrite releases_app, close_calls_app.
    unfold releases, close_calls. simpl. rewrite Nat.eqb_refl. simpl.
    repeat split; lia.
Qed.

(** C5. [close()] on an object whose ownership flag is false does nothing,
    however often it is called: the session supplied by the caller is neither
    closed nor released.  On an object that owns its open session, calling
    [close()] once or more releases the session exactly once (and leaves it
    closed); each call does reach [session.close()], which releases nothing
    the second time. *)
Theorem close_releases_own_session_once (c : Clever) (w : world) (n : nat) :
  (_close_session c = false -> close_times n (c, w) = (Ok tt, (c, w)))
  /\ (forall sid,
        _close_session c = true -> session c = Some sid ->
        sessions w !! sid = Some {| closed := false |} ->
        (0 < n)%nat ->
        let w' := snd (snd (close_times n (c, w))) in
        releases sid (events w') = S (releases sid (events w))
        /\ close_calls sid (events w') = (close_calls sid (events w) + n)%nat
        /\ is_closed sid w' = true).
Proof.
  split; [apply close_times_non_owner|].
  intros sid Hflag Hs Hopen Hn. destruct n as [|n]; [lia|]. simpl.
  rewrite (bind_ok _ _ _ _ _ (close_of_owner_open c w sid Hflag Hs Hopen)).
  set (w1 := {| now := now w;
                sessions := <[sid := {| closed := true |}]> (sessions w);
                events := (events w ++ [EvClose sid]) ++ [EvRelease sid];
                log := log w |}).
  assert (Hclosed : sessions w1 !! sid = Some {| closed := true |}).
  { simpl. apply list_lookup_insert_eq. eapply lookup_lt_Some. exact Hopen. }
  destruct (close_times_closed n c w1 sid Hflag Hs Hclosed) as (H1 & H2 & H3).
  rewrite H1, H2, H3. simpl.
  rewrite !releases_app, !close_calls_app.
  unfold releases, close_calls. simpl. rewrite Nat.eqb_refl. simpl.
  repeat split; lia.
Qed.


Lemma close_returns st : fst (close st) = Ok tt.
Proof.
  destruct st as [c w]. unfold close, session_close. unfold_m. simpl.
  destruct (session c); [|reflexivity].
  destruct (_close_session c); [|reflexivity]. simpl.
  now destruct (is_closed _ _).
Qed.

(** C6. Entering a usage scope returns the object itself and changes
    nothing; leaving it runs [close()], whatever exception details it is
    given.  So a scope [async with client: body] ends, on every path, in the
    state that [close()] makes of the state the body left, and gives what the
    body gave, a value or the exception it raised. *)
Theorem scope_enter_exit :
  (forall st : Clever * world, __aenter__ st = (Ok (fst st), st))
  /\ (forall (exc : option exn) (st : Clever * world), __aexit__ exc st = close st)
  /\ (forall (A : Type) (body : Clever -> M Clever A) (st : Clever * world),
        snd (async_with body st) = snd (close (snd (body (fst st) st)))
        /\ fst (async_with body st) = fst (body (fst st) st)).
Proof.
  split; [reflexivity|]. split; [reflexivity|].
  intros A body st. unfold async_with, exit_after, __aenter__, __aexit__. unfold_m. simpl.
  destruct (body (fst st) st) as [[a|e] st1]; simpl;
    pose proof (close_returns st1) as Hc;
    destruct (close st1) as [[[]|e'] st2]; simpl in *; try discriminate; auto.
Qed.


(** *** The ownership flag *)

Lemma keeps_or_creates_refl st : keeps_or_creates st st.
Proof. left. split; [reflexivity|]. intros sid. reflexivity. Qed.

Lemma in_snoc_other (e e' : event) (evs : list event) :
  e <> e' -> In e (evs ++ [e']) <-> In e evs.
Proof.
  intros Hne. rewrite in_app_iff. simpl. split; [|auto].
  intros [H|[H|[]]]; [exact H|]. congruence.
Qed.

Lemma request_first_creates url method data c w :
  session c = None ->
  let st' := snd (_request url method data (c, w)) in
  session (fst st') = Some (length (sessions w))
  /\ _close_session (fst st') = true
  /\ sessions (snd st') = sessions w ++ [{| closed := false |}]
  /\ In (EvNewSession (length (sessions w))) (events (snd st')).
Proof.
  intros Hs. simpl.
  destruct (request_keeps url method data (c, w)) as (Hself & Hsess & Hev).
  unfold at_try in *. rewrite (entering_without_session url data c w Hs) in *. simpl in *.
  rewrite Hself, Hsess. simpl. repeat split.
  rewrite (Hev _ eq_refl). rewrite !in_app_iff. simpl. auto.
Qed.

Lemma request_keeps_session url method data c w sid :
  session c = Some sid ->
  let st' := snd (_request url method data (c, w)) in
  fst st' = c
  /\ sessions (snd st') = sessions w
  /\ events (snd st') = events w ++ [EvRequest sid method url data request_headers].
Proof.
  intros Hs. simpl.
  destruct (request_keeps url method data (c, w)) as (Hself & Hsess & Hev).
  unfold at_try in *. rewrite (entering_with_session url data c w sid Hs) in *. simpl in *.
  rewrite Hself, Hsess. repeat split. now apply Hev.
Qed.

Lemma request_moves url method data st :
  keeps_or_creates st (snd (_request url method data st)).
Proof.
  destruct st as [c w]. destruct (session c) as [sid|] eqn:Hs.
  - destruct (request_keeps_session url method data c w sid Hs) as (H1 & _ & H3).
    left. split; [exact H1|]. intros s. rewrite H3. now apply in_snoc_other.
  - destruct (request_first_creates url method data c w Hs) as (H1 & H2 & _ & H4).
    right. simpl. repeat split; [exact Hs|exact H2|]. eauto.
Qed.

Lemma close_moves st : keeps_or_creates st (snd (close st)).
Proof.
  destruct st as [c w]. left. unfold close, session_close. unfold_m. simpl.
  destruct (session c) as [sid|]; [|split; [reflexivity|intros; reflexivity]].
  destruct (_close_session c); [|split; [reflexivity|intros; reflexivity]]. simpl.
  destruct (is_closed _ _); simpl; (split; [reflexivity|]); intros s.
  - now apply in_snoc_other.
  - rewrite in_snoc_other by discriminate. now apply in_snoc_other.
Qed.

(** After its request, a coroutine of [Auth] only looks at the response. *)
Lemma auth_state (o : operation) st :
  snd (perform o st) = st
  \/ snd (perform o st) = snd (close st)
  \/ exists url method data, snd (perform o st) = snd (_request url method data st).
Proof.
  destruct o; simpl.
  - right; right. exists url, method, data. unfold_m.
    now destruct (_request _ _ _ _) as [[v|e] st1].
  - right; left. reflexivity.
  - left. reflexivity.
  - right; left. reflexivity.
  - right; right.
    exists (SEND_AUTH_EMAIL +:+ "?email=" +:+ email), METH_GET, None.
    unfold send_auth_email. unfold_m.
    destruct (_request _ _ _ _) as [[v|e] st1]; simpl; [|reflexivity].
    now destruct (parse_obj _ _).
  - unfold verify_link. unfold_m.
    destruct (secret_code_of auth_link) as [code|e]; simpl; [|now left].
    right; right.
    exists (VERIFY_LINK +:+ "?token=" +:+ code +:+ "&email=" +:+ email), METH_GET, None.
    destruct (_request _ _ _ _) as [[v|e] st1]; simpl; [|reflexivity].
    destruct (setitem _ _ _); simpl; [|reflexivity].
    destruct (parse_obj _ _); simpl; [|reflexivity].
    destruct (getitem _ _); simpl; [|reflexivity].
    now destruct (negb _).
  - right; right.
    exists OBTAIN_USER_SECRET, METH_POST,
      (Some [("email", VStr email); ("firstName", VStr first_name);
             ("lastName", VStr last_name); ("token", VStr secret_code)]).
    unfold obtain_user_secret. unfold_m.
    destruct (_request _ _ _ _) as [[v|e] st1]; simpl; [|reflexivity].
    destruct (parse_obj _ _); simpl; [|reflexivity].
    destruct (getitem _ _); simpl; [|reflexivity].
    destruct (eq_str _ _); simpl; [|reflexivity].
    destruct (getitem _ _); simpl; [|reflexivity].
    now destruct (getitem _ _).
  - right; right.
    exists (OBTAIN_API_TOKEN +:+ "?secret=" +:+ user_secret +:+ "&email=" +:+ email),
      METH_GET, None.
    unfold obtain_api_token. unfold_m.
    destruct (_request _ _ _ _) as [[v|e] st1]; simpl; [|reflexivity].
    destruct (parse_obj _ _); simpl; [|reflexivity].
    now destruct (is_None _).
Qed.

Lemma perform_moves (o : operation) st : keeps_or_creates st (snd (perform o st)).
Proof.
  destruct (auth_state o st) as [H|[H|(url & method & data & H)]]; rewrite H.
  - apply keeps_or_creates_refl.
  - apply close_moves.
  - apply request_moves.
Qed.


Lemma inherited_view {A} (m : M Clever A) st :
  as_Clever (snd (inherited m st)) = snd (m (as_Clever st))
  /\ fst (inherited m st) = fst (m (as_Clever st))
  /\ api_token (fst (snd (inherited m st))) = api_token (fst st).
Proof.
  unfold inherited, as_Clever. destruct st as [s w]. simpl.
  now destruct (m (base s, w)) as [r [c w']].
Qed.

Lemma ask_state (q : query) st :
  snd (ask q st) = st
  \/ exists url, as_Clever (snd (ask q st)) = snd (_request url METH_GET None (as_Clever st)).
Proof.
  destruct q; simpl;
    [unfold get_user_info|unfold get_transactions|unfold get_evse_info
    |unfold get_energitillaeg];
    unfold_m; simpl;
    (destruct (format _ _) as [url|e]; simpl; [|now left]);
    right; exists url;
    destruct (inherited_view (_request url METH_GET None) st) as (Hst & Hres & _);
    rewrite <- Hst;
    destruct (inherited _ st) as [[v|e] st1]; simpl; try reflexivity;
    now destruct (parse_obj _ _).
Qed.

Lemma discard_state {T A} (m : M T A) st :
  snd ((m;; mret tt) st) = snd (m st).
Proof. unfold_m. now destruct (m st) as [[a|e] st1]. Qed.

Lemma sub_perform_moves (o : sub_operation) st :
  keeps_or_creates (as_Clever st) (as_Clever (snd (sub_perform o st))).
Proof.
  destruct o; cbn [sub_perform]; rewrite ?discard_state.
  - destruct (inherited_view (_request url method data) st) as (Hst & _ & _).
    rewrite Hst. apply request_moves.
  - destruct (inherited_view close st) as (Hst & _ & _).
    rewrite Hst. apply close_moves.
  - destruct (inherited_view __aenter__ st) as (Hst & _ & _).
    rewrite Hst. apply keeps_or_creates_refl.
  - destruct (inherited_view (__aexit__ exc) st) as (Hst & _ & _).
    rewrite Hst. apply close_moves.
  - destruct (ask_state q st) as [H|[url H]]; rewrite H.
    + apply keeps_or_creates_refl.
    + apply request_moves.
Qed.

Lemma flag_invariant_step st st' :
  flag_tells_ownership (fst st) (snd st) -> keeps_or_creates st st' ->
  flag_tells_ownership (fst st') (snd st').
Proof.
  unfold flag_tells_ownership, self_created.
  intros Hinv [[Hself Hev]|(Hnone & Hflag & sid & Hs & Hin)].
  - rewrite Hself. rewrite Hinv. split; intros (sid & Hs & Hin); exists sid;
      (split; [exact Hs|]); now apply Hev.
  - split; [|intros _; exact Hflag]. intros _. exists sid. auto.
Qed.

Lemma supplied_session_step st st' ext :
  session (fst st) = Some ext -> keeps_or_creates st st' -> fst st' = fst st.
Proof.
  intros Hs [[Hself _]|(Hnone & _)]; [exact Hself|congruence].
Qed.

Lemma run_invariant ops st :
  flag_tells_ownership (fst st) (snd st) ->
  flag_tells_ownership (fst (run ops st)) (snd (run ops st))
  /\ (forall ext, session (fst st) = Some ext -> fst (run ops st) = fst st).
Proof.
  revert st. induction ops as [|o ops IH]; intros st Hinv; simpl; [auto|].
  pose proof (perform_moves o st) as Hm.
  destruct (IH _ (flag_invariant_step _ _ Hinv Hm)) as [H1 H2].
  split; [exact H1|]. intros ext Hs.
  pose proof (supplied_session_step _ _ ext Hs Hm) as Hsame.
  rewrite (H2 ext); [exact Hsame|]. now rewrite Hsame.
Qed.

Lemma sub_run_invariant ops st :
  flag_tells_ownership (base (fst st)) (snd st) ->
  flag_tells_ownership (base (fst (sub_run ops st))) (snd (sub_run ops st))
  /\ (forall ext, session (base (fst st)) = Some ext ->
        base (fst (sub_run ops st)) = base (fst st)).
Proof.
  revert st. induction ops as [|o ops IH]; intros st Hinv; simpl; [auto|].
  pose proof (sub_perform_moves o st) as Hm.
  destruct (IH _ (flag_invariant_step (as_Clever st) (as_Clever _) Hinv Hm)) as [H1 H2].
  split; [exact H1|]. intros ext Hs.
  pose proof (supplied_session_step (as_Clever st) (as_Clever _) ext Hs Hm) as Hsame.
  simpl in Hsame. rewrite (H2 ext); [exact Hsame|]. now rewrite Hsame.
Qed.

(** C7. Take an object made with or without a session (the flag at its
    default) in a world where it has created no session yet.  A call of
    [_request] on an object without session creates one, stores it and sets
    the flag; on an object with a session it leaves the object as it is.
    After every sequence of operations, on an [Auth] as on a [Subscription]
    object, the flag is true exactly when the object holds a session it
    created itself, and an object that was given a session still holds that
    session with the flag false. *)
Theorem ownership_flag_invariant (timeout : Z) (supplied : option nat) (w : world) :
  (forall sid, ~ In (EvNewSession sid) (events w)) ->
  (forall c w1 url method data,
     session c = None ->
     let st' := snd (_request url method data (c, w1)) in
     session (fst st') = Some (length (sessions w1))
     /\ _close_session (fst st') = true
     /\ sessions (snd st') = sessions w1 ++ [{| closed := false |}]
     /\ In (EvNewSession (length (sessions w1))) (events (snd st')))
  /\ (forall c w1 url method data sid,
        session c = Some sid -> fst (snd (_request url method data (c, w1))) = c)
  /\ (forall ops,
        let st' := run ops (Clever_new timeout supplied, w) in
        flag_tells_ownership (fst st') (snd st')
        /\ (forall ext, supplied = Some ext ->
              session (fst st') = Some ext /\ _close_session (fst st') = false))
  /\ (forall ops,
        let st' := sub_run ops (Subscription_new timeout supplied, w) in
        flag_tells_ownership (base (fst st')) (snd st')
        /\ (forall ext, supplied = Some ext ->
              session (base (fst st')) = Some ext
              /\ _close_session (base (fst st')) = false)).
Proof.
  intros Hfresh.
  assert (Hinit : flag_tells_ownership (Clever_new timeout supplied) w).
  { unfold flag_tells_ownership, self_created. simpl. split; [discriminate|].
    intros (sid & _ & Hin). destruct (Hfresh sid Hin). }
  split; [intros; now apply request_first_creates|].
  split; [intros c w1 url method data sid Hs;
          now destruct (request_keeps_session url method data c w1 sid Hs)|].
  split; intros ops; simpl.
  - destruct (run_invariant ops (Clever_new timeout supplied, w) Hinit) as [H1 H2].
    split; [exact H1|]. intros ext ->. now rewrite (H2 ext eq_refl).
  - destruct (sub_run_invariant ops (Subscription_new timeout supplied, w) Hinit)
      as [H1 H2].
    split; [exact H1|]. intros ext ->. now rewrite (H2 ext eq_refl).
Qed.


(** *** The queries of a subscription *)

(** C8. Two calls of [get_transactions] from the same state (same object,
    same token, same backend) behave the same whatever their [box_id]
    arguments are, [None] included: the same result or exception and the same
    final state.  The URL is the template formatted with the token alone, the
    request is the GET request for that URL without body, and the result is
    the [Transactions] record parsed from its response: the argument does not
    enter the request in any way. *)
Theorem transactions_ignore_box_id (box_id box_id' : option string)
    (st : Subscription * world) :
  get_transactions box_id st = get_transactions box_id' st
  /\ (forall url,
        format GET_TRANSACTIONS (api_token (fst st)) = Ok url ->
        as_Clever (snd (get_transactions box_id st))
        = snd (_request url METH_GET None (as_Clever st))
        /\ fst (get_transactions box_id st)
           = match fst (_request url METH_GET None (as_Clever st)) with
             | Ok resp => parse_obj Transactions resp
             | Raise e => Raise e
             end)
  /\ (forall e,
        format GET_TRANSACTIONS (api_token (fst st)) = Raise e ->
        get_transactions box_id st = (Raise e, st)).
Proof.
  split; [reflexivity|]. split.
  - intros url Hurl.
    destruct (inherited_view (_request url METH_GET None) st) as (Hst & Hres & _).
    rewrite <- Hst, <- Hres. unfold get_transactions. unfold_m. simpl.
    rewrite Hurl. simpl.
    destruct (inherited _ st) as [[resp|e] st1]; simpl; [|auto].
    now destruct (parse_obj Transactions resp).
  - intros e He. unfold get_transactions. unfold_m. simpl. now rewrite He.
Qed.

Lemma query_getitem_missing (q : list (string * string)) (key : string) :
  (forall k v, In (k, v) q -> k <> key) -> query_getitem q key = Raise (KeyError key).
Proof.
  induction q as [|[k v] rest IH]; intros Hno; simpl; [reflexivity|].
  destruct (String.eqb k key) eqn:E.
  - apply String.eqb_eq in E. destruct (Hno k v); simpl; auto.
  - apply IH. intros k' v' Hin. apply (Hno k' v'). simpl. auto.
Qed.

(** C9. When the link's URL has no [secretCode] query parameter,
    [verify_link] raises [KeyError] (neither [CleverError] nor
    [CleverConnectionError]) and leaves everything as it was: no session is
    made, no request is issued, nothing is logged. *)
Theorem verify_link_without_secret_code (auth_link email : string)
    (q : list (string * string)) (st : Clever * world) :
  URL_query auth_link = Ok q ->
  (forall k v, In (k, v) q -> k <> "secretCode") ->
  verify_link auth_link email st = (Raise (KeyError "secretCode"), st).
Proof.
  intros Hq Hno. unfold verify_link, secret_code_of. unfold_m.
  now rewrite Hq, (query_getitem_missing q "secretCode" Hno).
Qed.

Lemma append_empty_r (s : string) : s +:+ EmptyString = s.
Proof. induction s as [|c s IH]; simpl; [reflexivity|now rewrite IH]. Qed.

Lemma emit_emit (a b : string) (r : result string) :
  emit a (emit b r) = emit (a +:+ b) r.
Proof.
  destruct r as [out|e]; simpl; [|reflexivity].
  f_equal. induction a as [|c a IH]; simpl; [reflexivity|now rewrite IH].
Qed.

Lemma scan_plain_text (tok : option string) (pre rest : string) :
  brace_free pre = true ->
  scan rich_field tok Text (pre +:+ rest) = emit pre (scan rich_field tok Text rest).
Proof.
  unfold brace_free. induction pre as [|c pre IH]; simpl; intros Hfree.
  - now destruct (scan rich_field tok Text rest).
  - apply andb_prop in Hfree. destruct Hfree as [Hc Hpre].
    apply negb_true_iff, orb_false_iff in Hc. destruct Hc as [Ho Hcl].
    rewrite Ho, Hcl, (IH Hpre). now rewrite emit_emit.
Qed.

(** A template whose first field is [api_token], after text without braces. *)
Lemma format_first_field (tok : option string) (pre rest : string) :
  brace_free pre = true ->
  format (pre +:+ "{api_token}" +:+ rest) tok
  = emit (pre +:+ str_of tok) (format rest tok).
Proof.
  intros Hpre. unfold format, str_format.
  rewrite (scan_plain_text tok pre _ Hpre). simpl.
  now rewrite emit_emit.
Qed.

Lemma format_plain_text (tok : option string) (s : string) :
  brace_free s = true -> format s tok = Ok s.
Proof.
  intros Hs. unfold format, str_format.
  rewrite <- (append_empty_r s) at 1.
  rewrite (scan_plain_text tok s EmptyString Hs). simpl.
  now rewrite append_empty_r.
Qed.

Lemma request_events url method data c w :
  let sid := match session c with Some s => s | None => length (sessions w) end in
  session (fst (snd (_request url method data (c, w)))) = Some sid
  /\ events (snd (snd (_request url method data (c, w))))
     = events w
       ++ match session c with Some _ => [] | None => [EvNewSession sid] end
       ++ [EvRequest sid method url data request_headers].
Proof.
  simpl. destruct (request_keeps url method data (c, w)) as (Hself & _ & Hev).
  unfold at_try in *. destruct (session c) as [sid|] eqn:Hs.
  - rewrite (entering_with_session url data c w sid Hs) in *. simpl in *.
    rewrite Hself. split; [exact Hs|]. now apply Hev.
  - rewrite (entering_without_session url data c w Hs) in *. simpl in *.
    rewrite Hself. simpl. split; [reflexivity|].
    rewrite (Hev _ eq_refl). now rewrite <- app_assoc.
Qed.

(** C10. The [api_token] of a [Subscription] is [None] until it is set, and
    no query looks whether it is: on an object whose token is [None], each of
    the four queries formats the token into its URL template, which gives a
    URL with the text "None" in the place of the token, and issues the GET
    request for that URL (after making a session, if the object has none).
    The template is one that [format] accepts, with text free of braces
    before its first [api_token] field. *)
Theorem queries_format_a_missing_token (q : query) (pre rest tail : string)
    (s : Subscription) (w : world) :
  url_template q = pre +:+ "{api_token}" +:+ rest ->
  brace_free pre = true ->
  format rest None = Ok tail ->
  api_token s = None ->
  (forall timeout supplied, api_token (Subscription_new timeout supplied) = None)
  /\ let st' := snd (ask q (s, w)) in
     let sid := match session (base s) with
                | Some sid => sid
                | None => length (sessions w)
                end in
     session (base (fst st')) = Some sid
     /\ events (snd st')
        = events w
          ++ match session (base s) with Some _ => [] | None => [EvNewSession sid] end
          ++ [EvRequest sid METH_GET (pre +:+ "None" +:+ tail) None request_headers].
Proof.
  intros Htemplate Hpre Hrest Htok. split; [reflexivity|].
  assert (Hstate : as_Clever (snd (ask q (s, w)))
                   = snd (_request (pre +:+ "None" +:+ tail) METH_GET None (base s, w))).
  { pose proof (format_first_field None pre rest Hpre) as Hf.
    rewrite <- Htemplate, Hrest in Hf. simpl in Hf.
    assert (Happ : (pre +:+ "None") +:+ tail = pre +:+ "None" +:+ tail).
    { clear. induction pre as [|c pre IH]; simpl; [reflexivity|now rewrite IH]. }
    rewrite Happ in Hf. clear Happ.
    destruct (inherited_view (_request (pre +:+ "None" +:+ tail) METH_GET None) (s, w))
      as (Hst & _ & _).
    change (as_Clever (s, w)) with (base s, w) in Hst. rewrite <- Hst.
    destruct q; simpl in Hf; simpl;
      [unfold get_user_info|unfold get_transactions|unfold get_evse_info
      |unfold get_energitillaeg];
      unfold_m; simpl; rewrite Htok, Hf; simpl;
      destruct (inherited _ _) as [[v|e] st1]; simpl; try reflexivity;
      now destruct (parse_obj _ _). }
  destruct (request_events (pre +:+ "None" +:+ tail) METH_GET None (base s) w) as [H1 H2].
  rewrite <- Hstate in H1, H2. exact (conj H1 H2).
Qed.

(** *** The auth flow *)

Lemma eq_str_true (v : value) (lit : string) :
  eq_str v lit = true <-> v = VStr lit.
Proof.
  destruct v; simpl; try (split; [discriminate|intros H; discriminate H]).
  rewrite String.eqb_eq. split; congruence.
Qed.

Lemma getitem_data (d : dict) (key : string) (v : value) :
  getitem (entry d "data") key = Ok v <-> data_entry d key = Some v.
Proof.
  unfold entry, data_entry.
  destruct (dict_get "data" d) as [[| | | | |payload]|]; simpl;
    try (split; intros H; discriminate H).
  destruct (dict_get key payload); split; intros H; try discriminate H; congruence.
Qed.

Lemma getitem_data_raises (d : dict) (key : string) (e : exn) :
  getitem (entry d "data") key = Raise e ->
  data_entry d key = None /\ forall msg, e <> CleverError msg.
Proof.
  unfold entry, data_entry.
  destruct (dict_get "data" d) as [[| | | | |payload]|]; simpl;
    try (intros [= <-]; split; [reflexivity|discriminate]).
  destruct (dict_get key payload); [discriminate|].
  intros [= <-]. split; [reflexivity|discriminate].
Qed.

(** What [verify_link] gives once the request has returned a dict. *)
Lemma verify_link_outcome (auth_link email secret : string) (d : dict)
    (st st' : Clever * world) :
  secret_code_of auth_link = Ok secret ->
  _request (VERIFY_LINK +:+ "?token=" +:+ secret +:+ "&email=" +:+ email)
    METH_GET None st = (Ok (VDict d), st') ->
  accepts VerifyLink (dict_set "secret_code" (VStr secret) d) = true ->
  let m := {| class_of := VerifyLink;
              fields := dict_set "secret_code" (VStr secret) d |} in
  verify_link auth_link email st
  = (match getitem (entry d "data") "result" with
     | Ok r => if eq_str r "Verified" then Ok m else Raise (CleverError r)
     | Raise e => Raise e
     end, st').
Proof.
  intros Hcode Hreq Hacc. unfold verify_link. unfold_m.
  rewrite Hcode. cbv beta iota zeta. rewrite Hreq; simpl. rewrite Hacc; simpl.
  unfold attr, entry; simpl.
  rewrite (dict_get_set_other "secret_code" "data") by discriminate.
  destruct (getitem _ "result") as [r|e]; simpl; [|reflexivity].
  now destruct (eq_str r "Verified").
Qed.

(** C1, as the code has it.  Let the link's [secretCode] parameter be
    [secret] and let the request return a dict [d] that the [VerifyLink] model
    accepts.  Then [verify_link] returns if and only if the [result] entry of
    the [data] payload of [d] is exactly "Verified"; the record returned has
    [secret] as its secret code; and when that entry is any other string,
    [CleverError] is raised with that string as its message. *)
Theorem verify_link_checks_data_result (auth_link email secret : string) (d : dict)
    (st st' : Clever * world) :
  secret_code_of auth_link = Ok secret ->
  _request (VERIFY_LINK +:+ "?token=" +:+ secret +:+ "&email=" +:+ email)
    METH_GET None st = (Ok (VDict d), st') ->
  accepts VerifyLink (dict_set "secret_code" (VStr secret) d) = true ->
  ((exists m, fst (verify_link auth_link email st) = Ok m)
   <-> data_entry d "result" = Some (VStr "Verified"))
  /\ (forall m, fst (verify_link auth_link email st) = Ok m ->
        attr m "secret_code" = VStr secret)
  /\ (forall other,
        data_entry d "result" = Some (VStr other) -> other <> "Verified" ->
        fst (verify_link auth_link email st) = Raise (CleverError (VStr other)))
  /\ snd (verify_link auth_link email st) = st'.
Proof.
  intros Hcode Hreq Hacc.
  rewrite (verify_link_outcome auth_link email secret d st st' Hcode Hreq Hacc). simpl.
  repeat split.
  - intros [m Hm]. destruct (getitem _ "result") as [r|e] eqn:Hr; [|discriminate].
    destruct (eq_str r "Verified") eqn:Hv; [|discriminate].
    apply eq_str_true in Hv. subst r. now apply getitem_data.
  - intros Hv. apply getitem_data in Hv. rewrite Hv. simpl. eauto.
  - intros m Hm. destruct (getitem _ "result") as [r|e]; [|discriminate].
    destruct (eq_str r "Verified"); [|discriminate].
    injection Hm as <-. unfold attr, entry. simpl. now rewrite dict_get_set_same.
  - intros other Hother Hne. apply getitem_data in Hother. rewrite Hother.
    destruct (eq_str (VStr other) "Verified") eqn:Hv; [|reflexivity].
    apply eq_str_true in Hv. congruence.
Qed.

Lemma obtain_user_secret_outcome (email first_name last_name secret_code : string)
    (d : dict) (st st' : Clever * world) :
  _request OBTAIN_USER_SECRET METH_POST
    (Some (user_secret_payload email first_name last_name secret_code)) st
  = (Ok (VDict d), st') ->
  accepts ObtainUserSecret d = true ->
  let m := {| class_of := ObtainUserSecret; fields := d |} in
  obtain_user_secret email first_name last_name secret_code st
  = (match getitem (entry d "data") "userSecret" with
     | Ok secret =>
         if eq_str secret "null" then
           match getitem (entry d "data") "verificationResponse" with
           | Ok verification =>
               match getitem verification "result" with
               | Ok msg => Raise (CleverError msg)
               | Raise e => Raise e
               end
           | Raise e => Raise e
           end
         else Ok m
     | Raise e => Raise e
     end, st').
Proof.
  intros Hreq Hacc. unfold obtain_user_secret. unfold_m.
  unfold user_secret_payload in Hreq. cbv beta iota zeta.
  rewrite Hreq; simpl. rewrite Hacc; simpl.
  unfold attr; simpl.
  destruct (getitem _ "userSecret") as [secret|e]; simpl; [|reflexivity].
  destruct (eq_str secret "null"); simpl; [|reflexivity].
  destruct (getitem _ "verificationResponse") as [verification|e]; simpl; [|reflexivity].
  now destruct (getitem verification "result").
Qed.

Lemma getitem_str_error (obj : value) (key : string) (e : exn) :
  getitem obj key = Raise e -> forall msg, e <> CleverError msg.
Proof.
  destruct obj; simpl; try (intros [= <-]; discriminate).
  destruct (dict_get key entries); [discriminate|]. intros [= <-]. discriminate.
Qed.

Lemma nested_result_getitem (d : dict) (msg : value) :
  nested_result d = Some msg
  <-> exists verification,
        getitem (entry d "data") "verificationResponse" = Ok verification
        /\ getitem verification "result" = Ok msg.
Proof.
  unfold nested_result. split.
  - destruct (data_entry d "verificationResponse") as [verification|] eqn:Hv;
      [|discriminate].
    apply getitem_data in Hv. intros H. exists verification. split; [exact Hv|].
    destruct verification; try discriminate. simpl. now rewrite H.
  - intros (verification & Hv & Hmsg). apply getitem_data in Hv. rewrite Hv.
    destruct verification; try discriminate. simpl in Hmsg.
    destruct (dict_get "result" entries); [congruence|discriminate].
Qed.

(** C2, as the code has it.  Let the request return a dict [d] that the
    [ObtainUserSecret] model accepts.  Then [obtain_user_secret] raises
    [CleverError] with message [msg] if and only if the [userSecret] entry of
    the [data] payload of [d] is the string "null" and [msg] is the [result]
    of the [verificationResponse] inside that payload; and it returns if and
    only if the payload has a [userSecret] entry that is not the string
    "null", and then the record returned holds [d], so that its user secret is
    that entry. *)
Theorem obtain_user_secret_checks_data (email first_name last_name secret_code : string)
    (d : dict) (st st' : Clever * world) :
  _request OBTAIN_USER_SECRET METH_POST
    (Some (user_secret_payload email first_name last_name secret_code)) st
  = (Ok (VDict d), st') ->
  accepts ObtainUserSecret d = true ->
  (forall msg,
     fst (obtain_user_secret email first_name last_name secret_code st)
     = Raise (CleverError msg)
     <-> data_entry d "userSecret" = Some (VStr "null") /\ nested_result d = Some msg)
  /\ (forall m,
        fst (obtain_user_secret email first_name last_name secret_code st) = Ok m
        <-> m = {| class_of := ObtainUserSecret; fields := d |}
            /\ exists secret, data_entry (fields m) "userSecret" = Some secret
                              /\ secret <> VStr "null")
  /\ snd (obtain_user_secret email first_name last_name secret_code st) = st'.
Proof.
  intros Hreq Hacc.
  rewrite (obtain_user_secret_outcome email first_name last_name secret_code d st st'
             Hreq Hacc). simpl.
  split; [|split; [|reflexivity]].
  - intros msg. split.
    + intros H. destruct (getitem _ "userSecret") as [secret|e] eqn:Hs.
      * destruct (eq_str secret "null") eqn:Hnull; [|discriminate].
        apply eq_str_true in Hnull. subst secret.
        split; [now apply getitem_data|]. apply nested_result_getitem.
        destruct (getitem _ "verificationResponse") as [verification|e] eqn:Hv.
        -- exists verification. split; [reflexivity|].
           destruct (getitem verification "result") as [r|e] eqn:Hr; [congruence|].
           injection H as ->. now destruct (getitem_str_error _ _ _ Hr msg).
        -- injection H as ->. now destruct (getitem_str_error _ _ _ Hv msg).
      * injection H as ->.
        destruct (getitem_data_raises _ _ _ Hs) as [_ Hno]. now destruct (Hno msg).
    + intros [Hnull Hnested]. apply getitem_data in Hnull. rewrite Hnull. simpl.
      apply nested_result_getitem in Hnested.
      destruct Hnested as (verification & Hv & Hr). now rewrite Hv, Hr.
  - intros m. split.
    + intros H. destruct (getitem _ "userSecret") as [secret|e] eqn:Hs; [|discriminate].
      destruct (eq_str secret "null") eqn:Hnull.
      * destruct (getitem _ "verificationResponse") as [verification|e]; [|discriminate].
        destruct (getitem verification "result"); discriminate.
      * injection H as <-. split; [reflexivity|]. simpl.
        exists secret. split; [now apply getitem_data|].
        intros ->. simpl in Hnull. discriminate.
    + intros [-> (secret & Hs & Hne)]. simpl in Hs. apply getitem_data in Hs. rewrite Hs.
      destruct (eq_str secret "null") eqn:Hnull; [|reflexivity].
      apply eq_str_true in Hnull. congruence.
Qed.

Lemma is_None_true (v : value) : is_None v = true <-> v = VNone.
Proof. destruct v; simpl; split; congruence. Qed.

(** C3. Let the request return a dict [d] that the [ObtainApiToken] model
    accepts.  Then [obtain_api_token] raises [CleverError] if and only if the
    [data] payload of [d] is [None] (null, or not there), the message then
    being the [status_message] entry of [d]; and when the payload is there,
    it returns the record made of [d]. *)
Theorem obtain_api_token_checks_data (user_secret email : string) (d : dict)
    (st st' : Clever * world) :
  _request (OBTAIN_API_TOKEN +:+ "?secret=" +:+ user_secret +:+ "&email=" +:+ email)
    METH_GET None st = (Ok (VDict d), st') ->
  accepts ObtainApiToken d = true ->
  ((exists msg, fst (obtain_api_token user_secret email st) = Raise (CleverError msg))
   <-> entry d "data" = VNone)
  /\ (entry d "data" = VNone ->
      fst (obtain_api_token user_secret email st)
      = Raise (CleverError (entry d "status_message")))
  /\ (entry d "data" <> VNone ->
      fst (obtain_api_token user_secret email st)
      = Ok {| class_of := ObtainApiToken; fields := d |})
  /\ snd (obtain_api_token user_secret email st) = st'.
Proof.
  intros Hreq Hacc. unfold obtain_api_token. unfold_m. cbv beta iota zeta.
  rewrite Hreq; simpl. rewrite Hacc; simpl. unfold attr; simpl.
  destruct (is_None (entry d "data")) eqn:Hnone; simpl.
  - apply is_None_true in Hnone. repeat split; eauto. congruence.
  - assert (Hsome : entry d "data" <> VNone).
    { intros H. apply is_None_true in H. congruence. }
    repeat split; try congruence.
    intros [msg H]. discriminate.
Qed.


(** Whatever the models accept: without a [data] payload in the response,
    neither [verify_link] nor [obtain_user_secret] returns, and neither raises
    [CleverError]; a [result] or [userSecret] entry beside it is not read. *)
Lemma auth_steps_need_data (d : dict) (st st' : Clever * world) :
  dict_get "data" d = None ->
  (forall auth_link email secret,
     secret_code_of auth_link = Ok secret ->
     _request (VERIFY_LINK +:+ "?token=" +:+ secret +:+ "&email=" +:+ email)
       METH_GET None st = (Ok (VDict d), st') ->
     exists e, fst (verify_link auth_link email st) = Raise e
               /\ forall msg, e <> CleverError msg)
  /\ (forall email first_name last_name secret_code,
        _request OBTAIN_USER_SECRET METH_POST
          (Some (user_secret_payload email first_name last_name secret_code)) st
        = (Ok (VDict d), st') ->
        exists e, fst (obtain_user_secret email first_name last_name secret_code st)
                  = Raise e
                  /\ forall msg, e <> CleverError msg).
Proof.
  intros Hdata. split.
  - intros auth_link email secret Hcode Hreq.
    destruct (accepts VerifyLink (dict_set "secret_code" (VStr secret) d)) eqn:Hacc.
    + rewrite (verify_link_outcome auth_link email secret d st st' Hcode Hreq Hacc).
      unfold entry. rewrite Hdata. simpl. eexists. split; [reflexivity|discriminate].
    + unfold verify_link. unfold_m. rewrite Hcode. cbv beta iota zeta.
      rewrite Hreq; simpl. rewrite Hacc; simpl.
      eexists. split; [reflexivity|discriminate].
  - intros email first_name last_name secret_code Hreq.
    destruct (accepts ObtainUserSecret d) eqn:Hacc.
    + rewrite (obtain_user_secret_outcome email first_name last_name secret_code d st st'
                 Hreq Hacc).
      unfold entry. rewrite Hdata. simpl. eexists. split; [reflexivity|discriminate].
    + unfold obtain_user_secret. unfold_m. unfold user_secret_payload in Hreq.
      cbv beta iota zeta. rewrite Hreq; simpl. rewrite Hacc; simpl.
      eexists. split; [reflexivity|discriminate].
Qed.


(** *** More on the request: each way it can go *)

Lemma at_try_world url data st :
  now (snd (at_try url data st)) = now (snd st)
  /\ log (snd (at_try url data st)) = log (snd st) ++ entry_log url data.
Proof.
  destruct st as [c w]. unfold at_try.
  destruct (session c) as [sid|] eqn:Hs.
  - now rewrite (entering_with_session url data c w sid Hs).
  - now rewrite (entering_without_session url data c w Hs).
Qed.

Lemma attempt_on_closed_session url method data headers c w sid :
  session c = Some sid -> is_closed sid w = true ->
  attempt url method data headers (c, w)
  = (Raise (RuntimeError "Session is closed"),
     (c, add_event (EvRequest sid method url data headers) w)).
Proof.
  intros Hs Hclosed. unfold_attempt. rewrite Hs; simpl.
  unfold is_closed in *; simpl. now rewrite Hclosed.
Qed.

Lemma attempt_bad_status url method data headers c w sid t1 response :
  session c = Some sid -> is_closed sid w = false ->
  backend (events w ++ [EvRequest sid method url data headers])
  = Resolves t1 (Ok response) ->
  Z.of_N t1 < request_timeout c ->
  400 <= status response ->
  attempt url method data headers (c, w)
  = (Raise (ClientResponseError (status response)),
     (c, set_now (now w + Z.of_N t1)
           (add_event (EvRequest sid method url data headers) w))).
Proof.
  intros Hs Hopen Hreply Ht Hstatus. unfold_attempt. rewrite Hs; simpl.
  unfold is_closed in *; simpl. rewrite Hopen; simpl. rewrite Hreply; simpl.
  destruct (Z.ltb_spec (now w + Z.of_N t1) (now w + request_timeout c)); [|lia]. simpl.
  destruct (Z.leb_spec 400 (status response)); [reflexivity|lia].
Qed.

Lemma attempt_success url method data headers c w sid t1 t2 response v :
  session c = Some sid -> is_closed sid w = false ->
  backend (events w ++ [EvRequest sid method url data headers])
  = Resolves t1 (Ok response) ->
  status response < 400 ->
  body response = Resolves t2 (Ok v) ->
  Z.of_N t1 + Z.of_N t2 < request_timeout c ->
  attempt url method data headers (c, w)
  = (Ok v,
     (c, {| now := now w + Z.of_N t1 + Z.of_N t2;
            sessions := sessions w;
            events := events w ++ [EvRequest sid method url data headers];
            log := (log w ++ [(DEBUG, Response_status (status response))])
                   ++ [(DEBUG, Response_JSON v)] |})).
Proof.
  intros Hs Hopen Hreply Hstatus Hbody Ht. unfold_attempt. rewrite Hs; simpl.
  unfold is_closed in *; simpl. rewrite Hopen; simpl. rewrite Hreply; simpl.
  destruct (Z.ltb_spec (now w + Z.of_N t1) (now w + request_timeout c)); [|lia]. simpl.
  destruct (Z.leb_spec 400 (status response)); [lia|]. simpl.
  rewrite Hbody; simpl.
  destruct (Z.ltb_spec (now w + Z.of_N t1 + Z.of_N t2) (now w + request_timeout c));
    [reflexivity|lia].
Qed.

Lemma session_open_at_try url data st :
  session_open url data st = true ->
  exists sid, session (fst (at_try url data st)) = Some sid
              /\ is_closed sid (snd (at_try url data st)) = false.
Proof.
  unfold session_open. destruct (session (fst (at_try url data st))) as [sid|];
    [|discriminate].
  intros H. apply negb_true_iff in H. eauto.
Qed.

(** X1. The way through: when the session is open, the response comes with
    a status below 400 and its body is decoded to [v], all within the time
    allowed, [_request] returns exactly [v]; the clock has advanced by the two
    waits, and no error is logged. *)
Theorem request_returns_decoded_body url method data st t1 t2 response v :
  session_open url data st = true ->
  answer url method data st = Resolves t1 (Ok response) ->
  status response < 400 ->
  body response = Resolves t2 (Ok v) ->
  Z.of_N t1 + Z.of_N t2 < request_timeout (fst st) ->
  fst (_request url method data st) = Ok v
  /\ now (snd (snd (_request url method data st)))
     = now (snd st) + Z.of_N t1 + Z.of_N t2
  /\ errors_logged (log (snd (snd (_request url method data st))))
     = errors_logged (log (snd st)).
Proof.
  intros Hopen Hanswer Hstatus Hbody Ht.
  destruct (session_open_at_try url data st Hopen) as (sid & Hs & Hnot).
  destruct (at_try_world url data st) as [Hnow Hlog].
  rewrite <- (at_try_request_timeout url data st) in Ht.
  rewrite request_unfold. unfold answer in Hanswer. rewrite Hs in Hanswer.
  destruct (at_try url data st) as [c1 w1]; simpl in *.
  unfold try_except.
  rewrite (attempt_success url method data request_headers c1 w1 sid t1 t2 response v
             Hs Hnot Hanswer Hstatus Hbody Ht). simpl.
  rewrite Hnow, Hlog. repeat split.
  unfold errors_logged, entry_log. rewrite !List.filter_app, !length_app. simpl.
  destruct (truthy data); simpl; lia.
Qed.

(** X2. A response whose status is 400 or more: [_request] raises the
    [ClientResponseError] of [raise_for_status] as it is, and the body is not
    read: the clock has advanced by the wait for the response only. *)
Theorem request_bad_status_is_not_read url method data st t1 response :
  session_open url data st = true ->
  answer url method data st = Resolves t1 (Ok response) ->
  Z.of_N t1 < request_timeout (fst st) ->
  400 <= status response ->
  fst (_request url method data st) = Raise (ClientResponseError (status response))
  /\ now (snd (snd (_request url method data st))) = now (snd st) + Z.of_N t1.
Proof.
  intros Hopen Hanswer Ht Hstatus.
  destruct (session_open_at_try url data st Hopen) as (sid & Hs & Hnot).
  destruct (at_try_world url data st) as [Hnow _].
  rewrite <- (at_try_request_timeout url data st) in Ht.
  rewrite request_unfold. unfold answer in Hanswer. rewrite Hs in Hanswer.
  destruct (at_try url data st) as [c1 w1]; simpl in *.
  unfold try_except.
  rewrite (attempt_bad_status url method data request_headers c1 w1 sid t1 response
             Hs Hnot Hanswer Ht Hstatus).
  unfold translate. unfold_m. simpl. now rewrite Hnow.
Qed.


Lemma errors_logged_app l1 l2 :
  errors_logged (l1 ++ l2) = (errors_logged l1 + errors_logged l2)%nat.
Proof. unfold errors_logged. now rewrite List.filter_app, length_app. Qed.

Lemma creations_app evs1 evs2 :
  creations (evs1 ++ evs2) = (creations evs1 + creations evs2)%nat.
Proof. unfold creations. now rewrite List.filter_app, length_app. Qed.

(** X3. [close()] does not forget the session.  After an object has closed
    the session it owns, a call of [_request] goes to that closed session:
    no new session is created, the backend is not reached (no time passes),
    and the [RuntimeError] of aiohttp is raised as it is. *)
Theorem request_after_close_fails url method data c w sid :
  _close_session c = true -> session c = Some sid ->
  sessions w !! sid = Some {| closed := false |} ->
  let st1 := snd (close (c, w)) in
  fst (_request url method data st1) = Raise (RuntimeError "Session is closed")
  /\ fst (snd (_request url method data st1)) = c
  /\ creations (events (snd (snd (_request url method data st1)))) = creations (events w)
  /\ now (snd (snd (_request url method data st1))) = now w.
Proof.
  intros Hflag Hs Hopen. simpl.
  rewrite (close_of_owner_open c w sid Hflag Hs Hopen). simpl.
  set (w1 := {| now := now w;
                sessions := <[sid := {| closed := true |}]> (sessions w);
                events := (events w ++ [EvClose sid]) ++ [EvRelease sid];
                log := log w |}).
  assert (Hclosed : is_closed sid w1 = true).
  { unfold is_closed. simpl.
    rewrite list_lookup_insert_eq; [reflexivity|]. eapply lookup_lt_Some. exact Hopen. }
  rewrite request_unfold. unfold at_try.
  rewrite (entering_with_session url data c w1 sid Hs). simpl.
  unfold try_except.
  rewrite (attempt_on_closed_session url method data request_headers c _ sid Hs);
    [|exact Hclosed].
  unfold translate. unfold_m. simpl. repeat split.
  rewrite !creations_app. unfold creations. simpl. lia.
Qed.

Lemma attempt_logs_no_error url method data headers st :
  errors_logged (log (snd (snd (attempt url method data headers st))))
  = errors_logged (log (snd st)).
Proof.
  destruct st as [c w]. unfold_attempt. destruct (session c); simpl; [|reflexivity].
  repeat case_step; rewrite ?errors_logged_app; unfold errors_logged; simpl; lia.
Qed.

Lemma translate_world exception st :
  now (snd (snd (translate exception st))) = now (snd st)
  /\ errors_logged (log (snd (snd (translate exception st))))
     = S (errors_logged (log (snd st))).
Proof.
  unfold translate. unfold_m.
  destruct (is_TimeoutError exception); simpl; rewrite errors_logged_app;
    unfold errors_logged; simpl; split; (reflexivity || lia).
Qed.

(** X5. A call of [_request] logs an error exactly when it raises an
    [Exception]: one ERROR record then, whatever the exception, and none when
    it returns a value.  A cancellation, which is no [Exception], goes through
    the two [except] clauses unlogged. *)
Theorem request_logs_each_exception_once url method data st :
  errors_logged (log (snd (snd (_request url method data st))))
  = (errors_logged (log (snd st))
     + match fst (_request url method data st) with
       | Ok _ => 0
       | Raise e => if is_Exception e then 1 else 0
       end)%nat.
Proof.
  destruct (at_try_world url data st) as [_ Hlog].
  assert (Hentry : errors_logged (log (snd (at_try url data st)))
                   = errors_logged (log (snd st))).
  { rewrite Hlog, errors_logged_app. unfold entry_log, errors_logged. simpl.
    destruct (truthy data); simpl; lia. }
  rewrite request_unfold. unfold try_except.
  pose proof (attempt_logs_no_error url method data request_headers (at_try url data st))
    as Hattempt.
  destruct (attempt _ _ _ _ _) as [[v|e] st2]; simpl in *; [lia|].
  destruct (is_Exception e) eqn:Hcaught; simpl; [|rewrite Hcaught; lia].
  destruct (translate_world e st2) as [_ Herr]. rewrite Herr.
  rewrite (translate_raises e st2).
  destruct (is_TimeoutError e); simpl; [|rewrite Hcaught]; lia.
Qed.

Lemma in_time_needs_time (budget : Z) (op : await ClientResponse) :
  budget <= 0 -> suspends op = true -> in_time budget op = false.
Proof.
  intros Hb Hs. unfold in_time. destruct op as [t1 [response|e]| |out];
    [| |reflexivity|discriminate].
  - destruct (Z.ltb_spec (Z.of_N t1) budget); [lia|reflexivity].
  - destruct (Z.ltb_spec (Z.of_N t1) budget); [lia|reflexivity].
Qed.

Lemma attempt_fails_at_once url method data headers c w sid e :
  session c = Some sid -> is_closed sid w = false ->
  backend (events w ++ [EvRequest sid method url data headers]) = Immediate (Raise e) ->
  attempt url method data headers (c, w)
  = (Raise e, (c, add_event (EvRequest sid method url data headers) w)).
Proof.
  intros Hs Hopen Hreply. unfold_attempt. rewrite Hs; simpl.
  unfold is_closed in *; simpl. rewrite Hopen; simpl. now rewrite Hreply.
Qed.

(** X6. With a [request_timeout] of zero or less, a call that has to wait
    for anything is cancelled where it suspends: on an open session
    [_request] then raises [CleverConnectionError] with the timeout message,
    whatever the backend would answer.  The timeout does not reach what
    happens before the first suspension: an exception raised there, such as
    the one for a URL that aiohttp rejects, comes out as it is. *)
Theorem request_without_time_fails_where_it_waits url method data st :
  request_timeout (fst st) <= 0 ->
  session_open url data st = true ->
  (suspends (answer url method data st) = true ->
   fst (_request url method data st) = Raise (CleverConnectionError timeout_msg))
  /\ (forall e,
        answer url method data st = Immediate (Raise e) ->
        is_TimeoutError e = false ->
        fst (_request url method data st) = Raise e).
Proof.
  intros Hzero Hopen.
  destruct (session_open_at_try url data st Hopen) as (sid & Hs & Hnot).
  rewrite <- (at_try_request_timeout url data st) in Hzero.
  rewrite request_outcome. unfold answer. rewrite Hs.
  destruct (at_try url data st) as [c1 w1]; simpl in *. split.
  - intros Hwaits.
    now rewrite (attempt_times_out url method data request_headers c1 w1 sid Hs Hnot
                   (in_time_needs_time _ _ Hzero Hwaits)).
  - intros e Hreply Hkind.
    rewrite (attempt_fails_at_once url method data request_headers c1 w1 sid e
               Hs Hnot Hreply). simpl. now rewrite Hkind.
Qed.

(** *** What a sequence of operations does to the sessions *)

Lemma request_effect url method data c w :
  session (fst (snd (_request url method data (c, w)))) = Some (session_in_use c w)
  /\ request_timeout (fst (snd (_request url method data (c, w)))) = request_timeout c
  /\ (forall sid, session c = Some sid -> fst (snd (_request url method data (c, w))) = c)
  /\ events (snd (snd (_request url method data (c, w))))
     = events w ++ request_trace c w method url data.
Proof.
  destruct (request_events url method data c w) as [Hs Hev].
  destruct (request_keeps url method data (c, w)) as (Hself & _ & _).
  pose proof (at_try_request_timeout url data (c, w)) as Ht.
  split; [exact Hs|]. split; [now rewrite Hself|]. split; [|exact Hev].
  intros sid Hsid. rewrite Hself. unfold at_try.
  now rewrite (entering_with_session url data c w sid Hsid).
Qed.

Lemma close_effect c w :
  fst (snd (close (c, w))) = c
  /\ exists l, events (snd (snd (close (c, w)))) = events w ++ l
               /\ creations l = O
               /\ forall e, In e l -> is_request e = false.
Proof.
  unfold close, session_close. unfold_m. simpl.
  destruct (session c) as [sid|]; simpl;
    [|split; [reflexivity|exists []; rewrite app_nil_r; repeat split; intros e []]].
  destruct (_close_session c); simpl;
    [|split; [reflexivity|exists []; rewrite app_nil_r; repeat split; intros e []]].
  destruct (is_closed _ _); simpl; (split; [reflexivity|]).
  - exists [EvClose sid]. repeat split. intros e [<-|[]]. reflexivity.
  - exists [EvClose sid; EvRelease sid]. rewrite <- app_assoc. repeat split.
    intros e [<-|[<-|[]]]; reflexivity.
Qed.

(** What one operation does: nothing, what [close()] does, or what one call
    of [_request] does. *)
Lemma perform_cases (o : operation) c w :
  snd (perform o (c, w)) = (c, w)
  \/ snd (perform o (c, w)) = snd (close (c, w))
  \/ exists url method data,
       snd (perform o (c, w)) = snd (_request url method data (c, w)).
Proof. apply auth_state. Qed.

Lemma perform_creations (o : operation) c w :
  let st' := snd (perform o (c, w)) in
  request_timeout (fst st') = request_timeout c
  /\ (forall sid, session c = Some sid ->
        fst st' = c /\ creations (events (snd st')) = creations (events w))
  /\ (session c = None ->
        (fst st' = c /\ creations (events (snd st')) = creations (events w))
        \/ (exists sid, session (fst st') = Some sid)
           /\ creations (events (snd st')) = S (creations (events w))).
Proof.
  simpl. destruct (perform_cases o c w) as [H|[H|(url & method & data & H)]]; rewrite H.
  - simpl. repeat split; auto.
  - destruct (close_effect c w) as (Hself & l & Hev & Hnone & _).
    rewrite Hself, Hev, creations_app, Hnone, Nat.add_0_r. repeat split; auto.
  - destruct (request_effect url method data c w) as (Hs & Ht & Hkeep & Hev).
    rewrite Hev, creations_app. unfold request_trace, creations.
    split; [exact Ht|]. split.
    + intros sid Hsid. rewrite Hsid. simpl. split; [now apply (Hkeep sid)|lia].
    + intros Hnone. right. rewrite Hnone. simpl. split; [eauto|lia].
Qed.

(** X7. An object creates at most one session in its whole life, whatever
    is done with it and however its requests end, and an object that holds
    a session, given or made, creates none. *)
Theorem sessions_created_at_most_once (ops : list operation) (st : Clever * world) :
  (creations (events (snd (run ops st))) <= S (creations (events (snd st))))%nat
  /\ (forall sid, session (fst st) = Some sid ->
        creations (events (snd (run ops st))) = creations (events (snd st))
        /\ session (fst (run ops st)) = Some sid).
Proof.
  assert (Hheld : forall ops st sid, session (fst st) = Some sid ->
            creations (events (snd (run ops st))) = creations (events (snd st))
            /\ session (fst (run ops st)) = Some sid).
  { clear. intros ops. induction ops as [|o ops IH]; intros [c w] sid Hs; simpl; [auto|].
    destruct (perform_creations o c w) as (_ & Hsome & _).
    destruct (Hsome sid Hs) as [Hself Hcount].
    destruct (IH (snd (perform o (c, w))) sid) as [H1 H2]; [now rewrite Hself|].
    rewrite H1, H2. auto. }
  split; [|apply Hheld].
  revert st. induction ops as [|o ops IH]; intros [c w]; simpl; [lia|].
  destruct (perform_creations o c w) as (_ & Hsome & Hnone).
  destruct (session c) as [sid|] eqn:Hs.
  - destruct (Hsome sid eq_refl) as [Hself Hcount].
    specialize (IH (snd (perform o (c, w)))). lia.
  - destruct (Hnone eq_refl) as [[Hself Hcount]|[[sid Hsid] Hcount]].
    + specialize (IH (snd (perform o (c, w)))). lia.
    + destruct (Hheld ops (snd (perform o (c, w))) sid Hsid) as [H1 _]. lia.
Qed.

Lemma perform_requests (o : operation) c w :
  (forall sid method url data headers,
     In (EvRequest sid method url data headers) (events w) ->
     headers = request_headers /\ session c = Some sid) ->
  let st' := snd (perform o (c, w)) in
  forall sid method url data headers,
    In (EvRequest sid method url data headers) (events (snd st')) ->
    headers = request_headers /\ session (fst st') = Some sid.
Proof.
  intros Hinv. simpl.
  destruct (perform_cases o c w) as [H|[H|(url & method & data & H)]]; rewrite H.
  - exact Hinv.
  - destruct (close_effect c w) as (Hself & l & Hev & _ & Hnoreq).
    rewrite Hself, Hev. intros sid m u d h Hin. apply in_app_iff in Hin.
    destruct Hin as [Hin|Hin]; [now apply (Hinv sid m u d h)|].
    apply Hnoreq in Hin. discriminate.
  - destruct (request_effect url method data c w) as (Hs & _ & Hkeep & Hev).
    rewrite Hev. intros sid m u d h Hin. apply in_app_iff in Hin.
    destruct Hin as [Hin|Hin].
    + destruct (Hinv sid m u d h Hin) as [Hh Hsid].
      split; [exact Hh|]. now rewrite (Hkeep sid Hsid).
    + unfold request_trace in Hin. split.
      * destruct (session c); simpl in Hin;
          [destruct Hin as [Hin|[]]|destruct Hin as [Hin|[Hin|[]]]]; congruence.
      * rewrite Hs.
        destruct (session c); simpl in Hin;
          [destruct Hin as [Hin|[]]|destruct Hin as [Hin|[Hin|[]]]]; congruence.
Qed.

(** X8. In a world where no request has been made yet, every request that a
    sequence of operations makes carries the one fixed header, authorization
    with the constant of the module, and goes through the one session the
    object holds at the end: all the requests of an object share a session
    and a credential. *)
Theorem requests_share_session_and_header (ops : list operation) (st : Clever * world) :
  (forall e, In e (events (snd st)) -> is_request e = false) ->
  forall sid method url data headers,
    In (EvRequest sid method url data headers) (events (snd (run ops st))) ->
    headers = [("authorization", VStr AUTHORIZATION_HEADER)]
    /\ session (fst (run ops st)) = Some sid.
Proof.
  intros Hnone.
  assert (Hinv : forall sid method url data headers,
            In (EvRequest sid method url data headers) (events (snd st)) ->
            headers = request_headers /\ session (fst st) = Some sid).
  { intros sid m u d h Hin. apply Hnone in Hin. discriminate. }
  clear Hnone. revert st Hinv.
  induction ops as [|o ops IH]; intros [c w] Hinv; simpl; [exact Hinv|].
  apply IH. destruct (snd (perform o (c, w))) as [c1 w1] eqn:Hst.
  pose proof (perform_requests o c w Hinv) as Hstep. simpl in Hstep.
  now rewrite Hst in Hstep.
Qed.


Lemma ask_keeps_token (q : query) st :
  api_token (fst (snd (ask q st))) = api_token (fst st).
Proof.
  destruct q; simpl;
    [unfold get_user_info|unfold get_transactions|unfold get_evse_info
    |unfold get_energitillaeg];
    unfold_m; simpl;
    (destruct (format _ _) as [url|e]; simpl; [|reflexivity]);
    destruct (inherited_view (_request url METH_GET None) st) as (_ & _ & Htok);
    destruct (inherited _ st) as [[v|e] st1]; simpl in *; try exact Htok;
    now destruct (parse_obj _ _).
Qed.

Lemma sub_perform_cases (o : sub_operation) st :
  api_token (fst (snd (sub_perform o st))) = api_token (fst st)
  /\ (as_Clever (snd (sub_perform o st)) = as_Clever st
      \/ as_Clever (snd (sub_perform o st)) = snd (close (as_Clever st))
      \/ exists url method data,
           as_Clever (snd (sub_perform o st))
           = snd (_request url method data (as_Clever st))).
Proof.
  destruct o; cbn [sub_perform]; rewrite ?discard_state.
  - destruct (inherited_view (_request url method data) st) as (Hst & _ & Htok).
    split; [exact Htok|]. right; right. eauto.
  - destruct (inherited_view close st) as (Hst & _ & Htok). auto.
  - destruct (inherited_view __aenter__ st) as (Hst & _ & Htok). auto.
  - destruct (inherited_view (__aexit__ exc) st) as (Hst & _ & Htok). auto.
  - split; [apply ask_keeps_token|].
    destruct (ask_state q st) as [H|[url H]]; [left; now rewrite H|].
    right; right. eauto.
Qed.

Lemma step_keeps_timeout (st st' : Clever * world) :
  st' = st \/ st' = snd (close st)
  \/ (exists url method data, st' = snd (_request url method data st)) ->
  request_timeout (fst st') = request_timeout (fst st).
Proof.
  destruct st as [c w]. intros [->|[->|(url & method & data & ->)]].
  - reflexivity.
  - now destruct (close_effect c w) as [-> _].
  - now destruct (request_effect url method data c w) as (_ & Ht & _).
Qed.

(** X9. No operation changes how an object is set up: after any sequence
    of operations the [request_timeout] is the one the object started with,
    and on a [Subscription] so is the [api_token].  Only the session and its
    flag ever change. *)
Theorem settings_are_never_changed :
  (forall (ops : list operation) (st : Clever * world),
     request_timeout (fst (run ops st)) = request_timeout (fst st))
  /\ (forall (ops : list sub_operation) (st : Subscription * world),
        api_token (fst (sub_run ops st)) = api_token (fst st)
        /\ request_timeout (base (fst (sub_run ops st)))
           = request_timeout (base (fst st))).
Proof.
  split.
  - intros ops. induction ops as [|o ops IH]; intros [c w]; simpl; [reflexivity|].
    rewrite IH.
    apply (step_keeps_timeout (c, w) (snd (perform o (c, w)))). apply perform_cases.
  - intros ops. induction ops as [|o ops IH]; intros st; simpl; [auto|].
    destruct (IH (snd (sub_perform o st))) as [-> ->].
    destruct (sub_perform_cases o st) as [Htok Hcases].
    split; [exact Htok|].
    apply (step_keeps_timeout (as_Clever st) (as_Clever (snd (sub_perform o st)))).
    exact Hcases.
Qed.

(** X10. [close()] never raises, and touches nothing but the session the
    object holds: the object, the clock and the log are as before, no session
    is added or removed, and every other session is left as it was. *)
Theorem close_touches_only_its_session (c : Clever) (w : world) :
  fst (close (c, w)) = Ok tt
  /\ fst (snd (close (c, w))) = c
  /\ now (snd (snd (close (c, w)))) = now w
  /\ log (snd (snd (close (c, w)))) = log w
  /\ length (sessions (snd (snd (close (c, w))))) = length (sessions w)
  /\ forall other, session c <> Some other ->
       sessions (snd (snd (close (c, w)))) !! other = sessions w !! other.
Proof.
  unfold close, session_close. unfold_m. simpl.
  destruct (session c) as [sid|]; simpl; [|repeat split].
  destruct (_close_session c); simpl; [|repeat split].
  destruct (is_closed _ _); simpl; repeat split.
  - apply length_insert.
  - intros other Hne. apply list_lookup_insert_ne. congruence.
Qed.

Lemma async_with_state {A} (body : Clever -> M Clever A) st :
  snd (async_with body st) = snd (close (snd (body (fst st) st)))
  /\ fst (async_with body st) = fst (body (fst st) st).
Proof.
  unfold async_with, exit_after, __aenter__, __aexit__. unfold_m. simpl.
  destruct (body (fst st) st) as [[a|e] st1]; simpl;
    pose proof (close_returns st1) as Hc;
    destruct (close st1) as [[[]|e'] st2]; simpl in *; try discriminate; auto.
Qed.

(** X11. A scope around a request leaks no session: on an object without
    session, [async with] around [_request] gives what the request gave, a
    value or an exception, and leaves the one session the request created
    closed and released exactly once. *)
Theorem scope_releases_the_session_it_made url method data c w :
  session c = None ->
  let sid := length (sessions w) in
  let outcome := async_with (fun _ => _request url method data) (c, w) in
  fst outcome = fst (_request url method data (c, w))
  /\ session (fst (snd outcome)) = Some sid
  /\ is_closed sid (snd (snd outcome)) = true
  /\ creations (events (snd (snd outcome))) = S (creations (events w))
  /\ releases sid (events (snd (snd outcome))) = S (releases sid (events w)).
Proof.
  intros Hnone. simpl.
  destruct (async_with_state (fun _ => _request url method data) (c, w)) as [Hst Hres].
  rewrite Hst, Hres. simpl. split; [reflexivity|].
  destruct (request_first_creates url method data c w Hnone) as (Hs & Hflag & Hsess & _).
  destruct (request_effect url method data c w) as (_ & _ & _ & Hev).
  destruct (snd (_request url method data (c, w))) as [c1 w1]; simpl in *.
  assert (Hopen : sessions w1 !! length (sessions w) = Some {| closed := false |}).
  { rewrite Hsess. apply list_lookup_middle. reflexivity. }
  rewrite (close_of_owner_open c1 w1 _ Hflag Hs Hopen). simpl.
  split; [exact Hs|]. split.
  - unfold is_closed. simpl. rewrite list_lookup_insert_eq; [reflexivity|].
    eapply lookup_lt_Some. exact Hopen.
  - rewrite Hev. unfold request_trace, session_in_use. rewrite Hnone.
    rewrite !creations_app, !releases_app. unfold creations, releases. simpl.
    rewrite Nat.eqb_refl. simpl. split; lia.
Qed.


(** *** More on the auth flow *)

(** The state a step of the auth flow leaves is the one its request left. *)
Lemma auth_step_state st :
  (forall email,
     snd (send_auth_email email st)
     = snd (_request (SEND_AUTH_EMAIL +:+ "?email=" +:+ email) METH_GET None st))
  /\ (forall auth_link email secret,
        secret_code_of auth_link = Ok secret ->
        snd (verify_link auth_link email st)
        = snd (_request (VERIFY_LINK +:+ "?token=" +:+ secret +:+ "&email=" +:+ email)
                 METH_GET None st))
  /\ (forall email first_name last_name secret_code,
        snd (obtain_user_secret email first_name last_name secret_code st)
        = snd (_request OBTAIN_USER_SECRET METH_POST
                 (Some (user_secret_payload email first_name last_name secret_code)) st))
  /\ (forall user_secret email,
        snd (obtain_api_token user_secret email st)
        = snd (_request (OBTAIN_API_TOKEN +:+ "?secret=" +:+ user_secret
                         +:+ "&email=" +:+ email) METH_GET None st)).
Proof.
  repeat split.
  - intros email. unfold send_auth_email. unfold_m. cbv beta iota zeta.
    destruct (_request _ _ _ _) as [[v|e] st1]; simpl; repeat case_step; reflexivity.
  - intros auth_link email secret Hcode. unfold verify_link. unfold_m.
    rewrite Hcode. cbv beta iota zeta.
    destruct (_request _ _ _ _) as [[v|e] st1]; simpl; repeat case_step; reflexivity.
  - intros email first_name last_name secret_code.
    unfold obtain_user_secret, user_secret_payload. unfold_m. cbv beta iota zeta.
    destruct (_request _ _ _ _) as [[v|e] st1]; simpl; repeat case_step; reflexivity.
  - intros user_secret email. unfold obtain_api_token. unfold_m. cbv beta iota zeta.
    destruct (_request _ _ _ _) as [[v|e] st1]; simpl; repeat case_step; reflexivity.
Qed.

(** X12. What each step of the auth flow sends.  Each step makes exactly one
    call of [session.request] (after creating a session, if the object has
    none): [send_auth_email], [verify_link] and [obtain_api_token] a GET
    without body whose URL is the endpoint followed by the arguments as they
    are, nothing being escaped; [obtain_user_secret] a POST to its endpoint
    whose JSON body holds the four arguments under the keys email, firstName,
    lastName and token. *)
Theorem auth_steps_send_their_arguments (c : Clever) (w : world) :
  (forall email,
     events (snd (snd (send_auth_email email (c, w))))
     = events w
       ++ request_trace c w METH_GET (SEND_AUTH_EMAIL +:+ "?email=" +:+ email) None)
  /\ (forall auth_link email secret,
        secret_code_of auth_link = Ok secret ->
        events (snd (snd (verify_link auth_link email (c, w))))
        = events w
          ++ request_trace c w METH_GET
               (VERIFY_LINK +:+ "?token=" +:+ secret +:+ "&email=" +:+ email) None)
  /\ (forall email first_name last_name secret_code,
        events (snd (snd (obtain_user_secret email first_name last_name secret_code
                            (c, w))))
        = events w
          ++ request_trace c w METH_POST OBTAIN_USER_SECRET
               (Some [("email", VStr email); ("firstName", VStr first_name);
                      ("lastName", VStr last_name); ("token", VStr secret_code)]))
  /\ (forall user_secret email,
        events (snd (snd (obtain_api_token user_secret email (c, w))))
        = events w
          ++ request_trace c w METH_GET
               (OBTAIN_API_TOKEN +:+ "?secret=" +:+ user_secret +:+ "&email=" +:+ email)
               None).
Proof.
  destruct (auth_step_state (c, w)) as (Hsend & Hverify & Hsecret & Htoken).
  repeat split.
  - intros email. rewrite Hsend. apply request_effect.
  - intros auth_link email secret Hcode. rewrite (Hverify _ _ _ Hcode).
    apply request_effect.
  - intros email first_name last_name secret_code. rewrite Hsecret.
    apply request_effect.
  - intros user_secret email. rewrite Htoken. apply request_effect.
Qed.

Lemma parse_obj_error (cls : model_class) (obj : value) (e : exn) :
  parse_obj cls obj = Raise e -> e = ValidationError cls.
Proof.
  unfold parse_obj. destruct obj; try congruence.
  destruct (accepts cls entries); congruence.
Qed.

(** X13. [send_auth_email] checks nothing in the response: whatever dict
    the request returns, if the [SendEmail] model accepts it the step returns
    the record made of it, and the step never raises a [CleverError] on a
    response. *)
Theorem send_auth_email_checks_nothing (email : string) (resp : value)
    (st st' : Clever * world) :
  _request (SEND_AUTH_EMAIL +:+ "?email=" +:+ email) METH_GET None st = (Ok resp, st') ->
  send_auth_email email st = (parse_obj SendEmail resp, st')
  /\ (forall d, resp = VDict d -> accepts SendEmail d = true ->
        fst (send_auth_email email st) = Ok {| class_of := SendEmail; fields := d |})
  /\ (forall msg, fst (send_auth_email email st) <> Raise (CleverError msg)).
Proof.
  intros Hreq.
  assert (Hall : send_auth_email email st = (parse_obj SendEmail resp, st')).
  { unfold send_auth_email. unfold_m. cbv beta iota zeta. now rewrite Hreq. }
  rewrite Hall. simpl. repeat split.
  - intros d -> Hacc. simpl. now rewrite Hacc.
  - intros msg H. apply parse_obj_error in H. discriminate.
Qed.

(** X14. The record [verify_link] returns is the response with the secret
    code put in: its [secret_code] is the one of the link, also when the
    server sent a [secret_code] of its own, and every other entry reads as
    in the response. *)
Theorem verify_link_keeps_the_response (auth_link email secret : string) (d : dict)
    (st st' : Clever * world) :
  secret_code_of auth_link = Ok secret ->
  _request (VERIFY_LINK +:+ "?token=" +:+ secret +:+ "&email=" +:+ email)
    METH_GET None st = (Ok (VDict d), st') ->
  accepts VerifyLink (dict_set "secret_code" (VStr secret) d) = true ->
  data_entry d "result" = Some (VStr "Verified") ->
  exists m,
    fst (verify_link auth_link email st) = Ok m
    /\ class_of m = VerifyLink
    /\ attr m "secret_code" = VStr secret
    /\ forall key, key <> "secret_code" -> attr m key = entry d key.
Proof.
  intros Hcode Hreq Hacc Hverified.
  rewrite (verify_link_outcome auth_link email secret d st st' Hcode Hreq Hacc). simpl.
  apply getitem_data in Hverified. rewrite Hverified. simpl.
  eexists. split; [reflexivity|]. split; [reflexivity|].
  unfold attr, entry. simpl. split.
  - now rewrite dict_get_set_same.
  - intros key Hne. now rewrite dict_get_set_other.
Qed.

Lemma eq_str_false (v : value) (lit : string) :
  v <> VStr lit -> eq_str v lit = false.
Proof.
  intros Hne. destruct (eq_str v lit) eqn:E; [|reflexivity].
  apply eq_str_true in E. congruence.
Qed.

(** X15. What [verify_link] does with a response that is not a plain
    verdict.  Any [result] other than the string "Verified", a number or null
    as well as a string, becomes the message of a [CleverError]; a [data]
    payload without [result] gives [KeyError], and a response without [data]
    payload gives [TypeError]: these two are not turned into a
    [CleverError]. *)
Theorem verify_link_on_odd_responses (auth_link email secret : string) (d : dict)
    (st st' : Clever * world) :
  secret_code_of auth_link = Ok secret ->
  _request (VERIFY_LINK +:+ "?token=" +:+ secret +:+ "&email=" +:+ email)
    METH_GET None st = (Ok (VDict d), st') ->
  accepts VerifyLink (dict_set "secret_code" (VStr secret) d) = true ->
  (forall v, data_entry d "result" = Some v -> v <> VStr "Verified" ->
     fst (verify_link auth_link email st) = Raise (CleverError v))
  /\ (forall payload,
        dict_get "data" d = Some (VDict payload) -> dict_get "result" payload = None ->
        fst (verify_link auth_link email st) = Raise (KeyError "result"))
  /\ (entry d "data" = VNone ->
      fst (verify_link auth_link email st)
      = Raise (TypeError "'NoneType' object is not subscriptable")).
Proof.
  intros Hcode Hreq Hacc.
  rewrite (verify_link_outcome auth_link email secret d st st' Hcode Hreq Hacc). simpl.
  repeat split.
  - intros v Hv Hne. apply getitem_data in Hv. rewrite Hv.
    now rewrite (eq_str_false v "Verified" Hne).
  - intros payload Hdata Hnone. unfold entry. rewrite Hdata. simpl. now rewrite Hnone.
  - intros Hdata. now rewrite Hdata.
Qed.

(** X16. What [obtain_user_secret] does with a payload that lacks what it
    reads: a [data] payload without [userSecret] gives [KeyError]; a "null"
    secret without [verificationResponse], or with one that has no [result],
    gives [KeyError] in place of the [CleverError]; a response without [data]
    payload gives [TypeError]. *)
Theorem obtain_user_secret_on_odd_responses
    (email first_name last_name secret_code : string) (d : dict)
    (st st' : Clever * world) :
  _request OBTAIN_USER_SECRET METH_POST
    (Some (user_secret_payload email first_name last_name secret_code)) st
  = (Ok (VDict d), st') ->
  accepts ObtainUserSecret d = true ->
  (forall payload,
     dict_get "data" d = Some (VDict payload) -> dict_get "userSecret" payload = None ->
     fst (obtain_user_secret email first_name last_name secret_code st)
     = Raise (KeyError "userSecret"))
  /\ (forall payload,
        dict_get "data" d = Some (VDict payload) ->
        dict_get "userSecret" payload = Some (VStr "null") ->
        dict_get "verificationResponse" payload = None ->
        fst (obtain_user_secret email first_name last_name secret_code st)
        = Raise (KeyError "verificationResponse"))
  /\ (forall payload verification,
        dict_get "data" d = Some (VDict payload) ->
        dict_get "userSecret" payload = Some (VStr "null") ->
        dict_get "verificationResponse" payload = Some (VDict verification) ->
        dict_get "result" verification = None ->
        fst (obtain_user_secret email first_name last_name secret_code st)
        = Raise (KeyError "result"))
  /\ (entry d "data" = VNone ->
      fst (obtain_user_secret email first_name last_name secret_code st)
      = Raise (TypeError "'NoneType' object is not subscriptable")).
Proof.
  intros Hreq Hacc.
  rewrite (obtain_user_secret_outcome email first_name last_name secret_code d st st'
             Hreq Hacc). simpl.
  repeat split.
  - intros payload Hdata Hnone. unfold entry. rewrite Hdata. simpl. now rewrite Hnone.
  - intros payload Hdata Hnull Hnone. unfold entry. rewrite Hdata. simpl.
    rewrite Hnull. simpl. now rewrite Hnone.
  - intros payload verification Hdata Hnull Hv Hnone. unfold entry. rewrite Hdata. simpl.
    rewrite Hnull. simpl. rewrite Hv. simpl. now rewrite Hnone.
  - intros Hdata. now rewrite Hdata.
Qed.


(** *** More on the queries *)

(** A query is the formatting of its template, one GET request, and the
    parsing of the response into the model of the query. *)
Lemma ask_unfold (q : query) (st : Subscription * world) (url : string) :
  format (url_template q) (api_token (fst st)) = Ok url ->
  as_Clever (snd (ask q st)) = snd (_request url METH_GET None (as_Clever st))
  /\ fst (ask q st)
     = match fst (_request url METH_GET None (as_Clever st)) with
       | Ok resp => parse_obj (model_of q) resp
       | Raise e => Raise e
       end.
Proof.
  intros Hurl.
  destruct (inherited_view (_request url METH_GET None) st) as (Hst & Hres & _).
  rewrite <- Hst, <- Hres.
  destruct q; simpl in *;
    [unfold get_user_info|unfold get_transactions|unfold get_evse_info
    |unfold get_energitillaeg];
    unfold_m; simpl; rewrite Hurl; simpl;
    (destruct (inherited _ st) as [[resp|e] st1]; simpl; [|auto]);
    now destruct (parse_obj _ resp).
Qed.

Lemma append_assoc (a b c : string) : (a +:+ b) +:+ c = a +:+ b +:+ c.
Proof. induction a as [|x a IH]; simpl; [reflexivity|now rewrite IH]. Qed.

(** X17. Each query puts the token into the URL as it is: with a template
    that has text free of braces before its first [api_token] field, the one
    request a query makes is the GET without body for the URL in which the
    field is replaced by the token, unescaped, and the query leaves the token
    of the object as it was. *)
Theorem queries_send_the_token_as_it_is (q : query) (pre rest tail token : string)
    (s : Subscription) (w : world) :
  url_template q = pre +:+ "{api_token}" +:+ rest ->
  brace_free pre = true ->
  format rest (Some token) = Ok tail ->
  api_token s = Some token ->
  events (snd (snd (ask q (s, w))))
  = events w ++ request_trace (base s) w METH_GET (pre +:+ token +:+ tail) None
  /\ api_token (fst (snd (ask q (s, w)))) = Some token.
Proof.
  intros Htemplate Hpre Hrest Htok.
  split; [|now rewrite ask_keeps_token].
  pose proof (format_first_field (Some token) pre rest Hpre) as Hf.
  rewrite <- Htemplate, Hrest in Hf. simpl in Hf. rewrite append_assoc in Hf.
  destruct (ask_unfold q (s, w) (pre +:+ token +:+ tail)) as [Hst _];
    [simpl; now rewrite Htok|].
  change (events (snd (as_Clever (snd (ask q (s, w)))))
          = events w ++ request_trace (base s) w METH_GET (pre +:+ token +:+ tail) None).
  rewrite Hst. apply request_effect.
Qed.

(** X18. A query checks nothing in the response: whatever the request
    returns is parsed into the model of the query and returned, so that a
    dict the model accepts comes back as the record made of it, with every
    entry as it was; a query never raises a [CleverError] on a response. *)
Theorem queries_return_the_parsed_response (q : query) (url : string) (resp : value)
    (st : Subscription * world) (st' : Clever * world) :
  format (url_template q) (api_token (fst st)) = Ok url ->
  _request url METH_GET None (as_Clever st) = (Ok resp, st') ->
  fst (ask q st) = parse_obj (model_of q) resp
  /\ as_Clever (snd (ask q st)) = st'
  /\ (forall d, resp = VDict d -> accepts (model_of q) d = true ->
        fst (ask q st) = Ok {| class_of := model_of q; fields := d |})
  /\ (forall msg, fst (ask q st) <> Raise (CleverError msg)).
Proof.
  intros Hurl Hreq. destruct (ask_unfold q st url Hurl) as [Hst Hres].
  rewrite Hres, Hst, Hreq. simpl. repeat split.
  - intros d -> Hacc. simpl. now rewrite Hacc.
  - intros msg H. apply parse_obj_error in H. discriminate.
Qed.

(** X19. A step that fails while it builds its URL sends nothing: when
    [format] raises on the template of a query, or the URL constructor
    raises on the link given to [verify_link], that exception is raised as
    it is and the object and the world are as before: no session, no
    request, no log record. *)
Theorem url_errors_send_nothing :
  (forall (q : query) (st : Subscription * world) (e : exn),
     format (url_template q) (api_token (fst st)) = Raise e ->
     ask q st = (Raise e, st))
  /\ (forall (auth_link email : string) (st : Clever * world) (e : exn),
        URL_query auth_link = Raise e ->
        verify_link auth_link email st = (Raise e, st)).
Proof.
  split.
  - intros q st e He.
    destruct q; simpl in *;
      [unfold get_user_info|unfold get_transactions|unfold get_evse_info
      |unfold get_energitillaeg];
      unfold_m; simpl; now rewrite He.
  - intros auth_link email st e He. unfold verify_link, secret_code_of. unfold_m.
    now rewrite He.
Qed.


(** X20. No step swallows or replaces an exception of its request: when
    the call of [_request] that a step of the auth flow or a query makes
    raises, be it the [CleverConnectionError] of a timeout or anything else,
    the step raises the same exception, and nothing more is done. *)
Theorem steps_pass_request_errors_on (e : exn) :
  (forall email st st',
     _request (SEND_AUTH_EMAIL +:+ "?email=" +:+ email) METH_GET None st
     = (Raise e, st') ->
     send_auth_email email st = (Raise e, st'))
  /\ (forall auth_link email secret st st',
        secret_code_of auth_link = Ok secret ->
        _request (VERIFY_LINK +:+ "?token=" +:+ secret +:+ "&email=" +:+ email)
          METH_GET None st = (Raise e, st') ->
        verify_link auth_link email st = (Raise e, st'))
  /\ (forall email first_name last_name secret_code st st',
        _request OBTAIN_USER_SECRET METH_POST
          (Some (user_secret_payload email first_name last_name secret_code)) st
        = (Raise e, st') ->
        obtain_user_secret email first_name last_name secret_code st = (Raise e, st'))
  /\ (forall user_secret email st st',
        _request (OBTAIN_API_TOKEN +:+ "?secret=" +:+ user_secret
                  +:+ "&email=" +:+ email) METH_GET None st = (Raise e, st') ->
        obtain_api_token user_secret email st = (Raise e, st'))
  /\ (forall q url st st',
        format (url_template q) (api_token (fst st)) = Ok url ->
        _request url METH_GET None (as_Clever st) = (Raise e, st') ->
        fst (ask q st) = Raise e /\ as_Clever (snd (ask q st)) = st').
Proof.
  split; [|split; [|split; [|split]]].
  - intros email st st' Hreq. unfold send_auth_email. unfold_m. cbv beta iota zeta.
    now rewrite Hreq.
  - intros auth_link email secret st st' Hcode Hreq. unfold verify_link. unfold_m.
    rewrite Hcode. cbv beta iota zeta. now rewrite Hreq.
  - intros email first_name last_name secret_code st st' Hreq.
    unfold obtain_user_secret. unfold user_secret_payload in Hreq. unfold_m.
    cbv beta iota zeta. now rewrite Hreq.
  - intros user_secret email st st' Hreq. unfold obtain_api_token. unfold_m.
    cbv beta iota zeta. now rewrite Hreq.
  - intros q url st st' Hurl Hreq. destruct (ask_unfold q st url Hurl) as [Hst Hres].
    now rewrite Hres, Hst, Hreq.
Qed.

End Client.

(** ** The definitions at work *)

Local Abbreviation st0 := (Clever_new 10 None, Demo.w0).
Local Abbreviation link := "https://x/cb?a=1&secretCode=s3cr3t".
Local Abbreviation verify_url := "https://b/verify".
Local Abbreviation verified := [("data", VDict [("result", VStr "Verified")])].
Local Abbreviation run_verify_link body :=
  (verify_link "auth" verify_url Demo.URL_query Demo.accept_all
     (Demo.answering (VDict body)) Demo.punctual link "me@x.dk" st0).
Local Abbreviation run_obtain_user_secret body :=
  (obtain_user_secret "auth" "https://b/secret" Demo.accept_all
     (Demo.answering (VDict body)) Demo.punctual "me@x.dk" "Ada" "Lovelace" "s3cr3t" st0).
Local Abbreviation run_obtain_api_token body :=
  (obtain_api_token "auth" "https://b/token" Demo.accept_all
     (Demo.answering (VDict body)) Demo.punctual "abc123" "me@x.dk" st0).

Example format_demo :
  format Demo.plain_only "https://host/api/{api_token}/x" (Some "tok") = Ok "https://host/api/tok/x"
  /\ format Demo.plain_only "a{{b}}c{api_token}" None = Ok "a{b}cNone"
  /\ format Demo.plain_only "a{other}" None = Raise (KeyError "other")
  /\ format Demo.plain_only "a{}" None
     = Raise (IndexError "Replacement index out of range for positional args tuple")
  /\ format Demo.plain_only "a}" None = Raise (ValueError "Single '}' encountered in format string").
Proof. repeat split; reflexivity. Qed.

Example rich_fields_demo :
  str_format (fun field _ => Ok ("<" +:+ field +:+ ">"))
    "a{api_token:>5}b{api_token!s}c{api_token:{api_token}}{api_token}" (Some "T")
  = Ok "a<api_token:>5>b<api_token!s>c<api_token:{api_token}>T".
Proof. reflexivity. Qed.

Example verify_link_demo :
  fst (run_verify_link verified)
  = Ok {| class_of := VerifyLink;
          fields := [("data", VDict [("result", VStr "Verified")]);
                     ("secret_code", VStr "s3cr3t")] |}
  /\ fst (run_verify_link [("data", VDict [("result", VStr "Expired")])])
     = Raise (CleverError (VStr "Expired"))
  /\ events (snd (snd (run_verify_link verified)))
     = [EvNewSession 0;
        EvRequest 0 "GET" "https://b/verify?token=s3cr3t&email=me@x.dk" None
          [("authorization", VStr "auth")]].
Proof. repeat split; vm_compute; reflexivity. Qed.

Example request_demo :
  fst (_request "auth" Demo.silent Demo.punctual "https://b/u" "GET" None st0)
  = Raise (CleverConnectionError "Timeout while connecting to Clever backend")
  /\ now (snd (snd (_request "auth" Demo.silent (fun _ => 2%N) "https://b/u" "GET" None st0))) = 12
  /\ fst (_request "auth"
            (fun _ => Resolves 3 (Raise (ForeignError "ClientConnectorError" false "refused")))
            Demo.punctual "https://b/u" "GET" None st0)
     = Raise (ForeignError "ClientConnectorError" false "refused")
  /\ fst (_request "auth"
            (fun _ => Resolves 3 (Ok {| status := 404; body := Pending |}))
            Demo.punctual "https://b/u" "GET" None st0)
     = Raise (ClientResponseError 404)
  /\ fst (_request "auth"
            (fun _ => Immediate (Raise (ForeignError "InvalidUrlClientError" false "u")))
            Demo.punctual "u" "GET" None (Clever_new 0 None, Demo.w0))
     = Raise (ForeignError "InvalidUrlClientError" false "u")
  /\ _request "auth" (fun _ => Resolves 3 (Raise CancelledError)) Demo.punctual
       "https://b/u" "GET" None (Clever_new 10 (Some 0%nat), Demo.w1)
     = (Raise CancelledError,
        (Clever_new 10 (Some 0%nat),
         {| now := 3;
            sessions := [{| closed := false |}];
            events := [EvRequest 0 "GET" "https://b/u" None [("authorization", VStr "auth")]];
            log := [(DEBUG, Request_URL "https://b/u");
                    (DEBUG, Request_headers [("authorization", VStr "auth")])] |})).
Proof. repeat split; vm_compute; reflexivity. Qed.

(** C1, as the claim has it, fails: the response of the spec's example has
    "Verified" as its [result] field, and [verify_link] does not return; it
    reads the [data] payload, which this response lacks. *)
Lemma verify_link_top_level_result_fails :
  dict_get "result" [("result", VStr "Verified")] = Some (VStr "Verified")
  /\ secret_code_of Demo.URL_query link = Ok "s3cr3t"
  /\ fst (_request "auth" (Demo.answering (VDict [("result", VStr "Verified")])) Demo.punctual
            "https://b/verify?token=s3cr3t&email=me@x.dk" METH_GET None st0)
     = Ok (VDict [("result", VStr "Verified")])
  /\ fst (run_verify_link [("result", VStr "Verified")])
     = Raise (TypeError "'NoneType' object is not subscriptable")
  /\ ~ (exists m, fst (run_verify_link [("result", VStr "Verified")]) = Ok m).
Proof.
  repeat split; try (vm_compute; reflexivity).
  intros [m Hm]. vm_compute in Hm. discriminate Hm.
Qed.

Lemma verify_link_checks_data_result_witness :
  secret_code_of Demo.URL_query link = Ok "s3cr3t"
  /\ Demo.accept_all VerifyLink (dict_set "secret_code" (VStr "s3cr3t") verified) = true
  /\ (exists m, fst (run_verify_link verified) = Ok m).
Proof.
  split; [reflexivity|]. split; [reflexivity|].
  apply (proj1 (verify_link_checks_data_result "auth" verify_url Demo.URL_query
                  Demo.accept_all (Demo.answering (VDict verified)) Demo.punctual link "me@x.dk"
                  "s3cr3t" verified st0
                  (snd (_request "auth" (Demo.answering (VDict verified)) Demo.punctual
                          "https://b/verify?token=s3cr3t&email=me@x.dk" METH_GET None st0))
                  eq_refl eq_refl eq_refl)).
  reflexivity.
Defined.

(** C2, as the claim has it, fails: the response of the spec's example has
    "null" as its [userSecret] field and "Denied" as the nested result, and
    [obtain_user_secret] raises no [CleverError]; it reads the [data] payload,
    which this response lacks. *)
Lemma obtain_user_secret_top_level_fields_fail :
  let r := [("userSecret", VStr "null");
            ("verificationResponse", VDict [("result", VStr "Denied")])] in
  dict_get "userSecret" r = Some (VStr "null")
  /\ fst (_request "auth" (Demo.answering (VDict r)) Demo.punctual "https://b/secret" METH_POST
            (Some (user_secret_payload "me@x.dk" "Ada" "Lovelace" "s3cr3t")) st0)
     = Ok (VDict r)
  /\ fst (run_obtain_user_secret r)
     = Raise (TypeError "'NoneType' object is not subscriptable")
  /\ fst (run_obtain_user_secret r) <> Raise (CleverError (VStr "Denied")).
Proof.
  repeat split; try (vm_compute; reflexivity).
  intros H. vm_compute in H. discriminate H.
Qed.

Lemma obtain_user_secret_checks_data_witness :
  let r := [("data", VDict [("userSecret", VStr "null");
                            ("verificationResponse", VDict [("result", VStr "Denied")])])] in
  Demo.accept_all ObtainUserSecret r = true
  /\ fst (run_obtain_user_secret r) = Raise (CleverError (VStr "Denied")).
Proof.
  split; [reflexivity|].
  apply (proj1 (obtain_user_secret_checks_data "auth" "https://b/secret" Demo.accept_all
                  (Demo.answering
                     (VDict [("data", VDict [("userSecret", VStr "null");
                                             ("verificationResponse",
                                              VDict [("result", VStr "Denied")])])])) Demo.punctual
                  "me@x.dk" "Ada" "Lovelace" "s3cr3t" _ st0
                  (snd (_request "auth"
                          (Demo.answering
                             (VDict [("data", VDict [("userSecret", VStr "null");
                                                     ("verificationResponse",
                                                      VDict [("result", VStr "Denied")])])])) Demo.punctual
                          "https://b/secret" METH_POST
                          (Some (user_secret_payload "me@x.dk" "Ada" "Lovelace" "s3cr3t"))
                          st0))
                  eq_refl eq_refl)).
  split; reflexivity.
Defined.

Lemma obtain_api_token_checks_data_witness :
  let r := [("data", VNone); ("status_message", VStr "No token")] in
  Demo.accept_all ObtainApiToken r = true
  /\ entry r "data" = VNone
  /\ fst (run_obtain_api_token r) = Raise (CleverError (VStr "No token")).
Proof.
  split; [reflexivity|]. split; [reflexivity|].
  apply (obtain_api_token_checks_data "auth" "https://b/token" Demo.accept_all
           (Demo.answering (VDict [("data", VNone); ("status_message", VStr "No token")])) Demo.punctual
           "abc123" "me@x.dk" _ st0
           (snd (_request "auth"
                   (Demo.answering
                      (VDict [("data", VNone); ("status_message", VStr "No token")])) Demo.punctual
                   "https://b/token?secret=abc123&email=me@x.dk" METH_GET None st0))
           eq_refl eq_refl).
  reflexivity.
Defined.

Local Abbreviation library_timeout :=
  (fun _ : list event =>
     Resolves 1 (Raise (ForeignError "ServerTimeoutError" true
                          "Timeout on reading data from socket"))).

(** C4, as the claim has it, fails: here the call is over after one unit of
    time, well within a [request_timeout] of ten, with the timeout error of
    the library, which derives from [asyncio.TimeoutError]; it is translated
    into [CleverConnectionError], not raised again unchanged. *)
Lemma library_timeout_is_translated_too :
  request_timeout (fst st0) = 10
  /\ in_time 10 (answer "auth" library_timeout "https://b/u" "GET" None st0) = true
  /\ fst (_request "auth" library_timeout Demo.punctual "https://b/u" "GET" None st0)
     = Raise (CleverConnectionError timeout_msg)
  /\ fst (_request "auth" library_timeout Demo.punctual "https://b/u" "GET" None st0)
     <> Raise (ForeignError "ServerTimeoutError" true
                 "Timeout on reading data from socket").
Proof.
  repeat split; try (vm_compute; reflexivity).
  intros H. vm_compute in H. discriminate H.
Qed.

Lemma request_translates_only_timeouts_witness :
  session_open "auth" "https://b/u" None st0 = true
  /\ in_time (request_timeout (fst st0))
       (answer "auth" Demo.silent "https://b/u" "GET" None st0) = false
  /\ fst (_request "auth" Demo.silent Demo.punctual "https://b/u" "GET" None st0)
     = Raise (CleverConnectionError timeout_msg)
  /\ is_TimeoutError (ForeignError "ServerTimeoutError" true
                        "Timeout on reading data from socket") = true
  /\ fst (_request "auth" library_timeout Demo.punctual "https://b/u" "GET" None st0)
     = Raise (CleverConnectionError timeout_msg).
Proof.
  split; [reflexivity|]. split; [reflexivity|].
  split.
  - apply (proj1 (request_translates_only_timeouts "auth" Demo.silent Demo.punctual
                    "https://b/u" "GET" None st0)); reflexivity.
  - split; [reflexivity|].
    apply (proj1 (proj2 (request_translates_only_timeouts "auth" library_timeout
                           Demo.punctual "https://b/u" "GET" None st0))
             (ForeignError "ServerTimeoutError" true
                "Timeout on reading data from socket"));
      reflexivity.
Defined.

Lemma close_releases_own_session_once_witness :
  let st := snd (_request "auth" (Demo.answering VNone) Demo.punctual "https://b/u" "GET" None st0) in
  _close_session (fst st) = true
  /\ session (fst st) = Some 0%nat
  /\ sessions (snd st) !! 0%nat = Some {| closed := false |}
  /\ releases 0 (events (snd (snd (close_times 2 (fst st, snd st))))) = 1%nat
  /\ close_calls 0 (events (snd (snd (close_times 2 (fst st, snd st))))) = 2%nat.
Proof.
  do 3 (split; [reflexivity|]).
  destruct (proj2 (close_releases_own_session_once
                     (fst (snd (_request "auth" (Demo.answering VNone) Demo.punctual "https://b/u" "GET" None st0)))
                     (snd (snd (_request "auth" (Demo.answering VNone) Demo.punctual "https://b/u" "GET" None st0)))
                     2)
              0%nat eq_refl eq_refl eq_refl ltac:(lia)) as (H1 & H2 & _).
  split; [exact H1|exact H2].
Defined.

Lemma ownership_flag_invariant_witness :
  (forall sid, ~ In (EvNewSession sid) (events Demo.w1))
  /\ let st' := run "auth" "https://b/send" verify_url "https://b/secret" "https://b/token"
                  Demo.URL_query Demo.accept_all Demo.silent Demo.punctual
                  [Call_request "https://b/u" "GET" None; Call_close;
                   Call_verify_link link "me@x.dk"; Call_close]
                  (Clever_new 10 (Some 0%nat), Demo.w1) in
     session (fst st') = Some 0%nat /\ _close_session (fst st') = false.
Proof.
  assert (Hfresh : forall sid, ~ In (EvNewSession sid) (events Demo.w1)).
  { intros sid H. exact H. }
  split; [exact Hfresh|].
  destruct (ownership_flag_invariant "auth" "https://b/send" verify_url "https://b/secret"
              "https://b/token" "https://b/user/{api_token}" "https://b/tx/{api_token}"
              "https://b/evse/{api_token}" "https://b/energi/{api_token}"
              Demo.URL_query Demo.accept_all Demo.silent Demo.punctual Demo.plain_only 10 (Some 0%nat) Demo.w1 Hfresh)
    as (_ & _ & Hrun & _).
  exact (proj2 (Hrun [Call_request "https://b/u" "GET" None; Call_close;
                      Call_verify_link link "me@x.dk"; Call_close])
           0%nat eq_refl).
Defined.

Lemma verify_link_without_secret_code_witness :
  Demo.URL_query "https://x/cb?a=1&b=2" = Ok [("a", "1"); ("b", "2")]
  /\ verify_link "auth" verify_url Demo.URL_query Demo.accept_all Demo.silent Demo.punctual
       "https://x/cb?a=1&b=2" "me@x.dk" st0
     = (Raise (KeyError "secretCode"), st0).
Proof.
  split; [reflexivity|].
  apply (verify_link_without_secret_code "auth" verify_url Demo.URL_query Demo.accept_all
           Demo.silent Demo.punctual "https://x/cb?a=1&b=2" "me@x.dk" [("a", "1"); ("b", "2")] st0 eq_refl).
  simpl. intros k v [H|[H|[]]]; injection H as <- _; discriminate.
Defined.

Lemma queries_format_a_missing_token_witness :
  brace_free "https://b/tx/" = true
  /\ format Demo.plain_only "/list?t={api_token}" None = Ok "/list?t=None"
  /\ events (snd (snd (get_transactions "auth" "https://b/tx/{api_token}/list?t={api_token}"
                         Demo.accept_all Demo.silent Demo.punctual Demo.plain_only (Some "box-7")
                         (Subscription_new 10 None, Demo.w0))))
     = [EvNewSession 0;
        EvRequest 0 "GET" "https://b/tx/None/list?t=None" None
          [("authorization", VStr "auth")]].
Proof.
  split; [reflexivity|]. split; [reflexivity|].
  exact (proj2 (proj2 (queries_format_a_missing_token "auth" "https://b/user/{api_token}"
                         "https://b/tx/{api_token}/list?t={api_token}"
                         "https://b/evse/{api_token}" "https://b/energi/{api_token}"
                         Demo.accept_all Demo.silent Demo.punctual Demo.plain_only
                         (Get_transactions (Some "box-7")) "https://b/tx/"
                         "/list?t={api_token}" "/list?t=None"
                         (Subscription_new 10 None) Demo.w0
                         eq_refl eq_refl eq_refl eq_refl))).
Defined.

Lemma transactions_ignore_box_id_witness :
  format Demo.plain_only "https://b/tx/{api_token}/list" (api_token (Subscription_new 10 None))
  = Ok "https://b/tx/None/list"
  /\ get_transactions "auth" "https://b/tx/{api_token}/list" Demo.accept_all
       (Demo.answering (VDict [("data", VList [])])) Demo.punctual Demo.plain_only (Some "box-7")
       (Subscription_new 10 None, Demo.w0)
     = get_transactions "auth" "https://b/tx/{api_token}/list" Demo.accept_all
         (Demo.answering (VDict [("data", VList [])])) Demo.punctual Demo.plain_only None
         (Subscription_new 10 None, Demo.w0)
  /\ fst (get_transactions "auth" "https://b/tx/{api_token}/list" Demo.accept_all
            (Demo.answering (VDict [("data", VList [])])) Demo.punctual Demo.plain_only (Some "box-7")
            (Subscription_new 10 None, Demo.w0))
     = Ok {| class_of := Transactions; fields := [("data", VList [])] |}.
Proof.
  split; [reflexivity|].
  destruct (transactions_ignore_box_id "auth" "https://b/tx/{api_token}/list"
              Demo.accept_all (Demo.answering (VDict [("data", VList [])])) Demo.punctual Demo.plain_only
              (Some "box-7") None (Subscription_new 10 None, Demo.w0))
    as (Hsame & Hurl & _).
  split; [exact Hsame|].
  destruct (Hurl "https://b/tx/None/list" eq_refl) as [_ Hres].
  exact Hres.
Defined.

(** ** The further properties at work *)

Local Abbreviation not_found :=
  (fun _ : list event => Resolves 3 (Ok {| status := 404; body := Pending |})).
Local Abbreviation demo_run backend :=
  (run "auth" "https://b/send" verify_url "https://b/secret" "https://b/token"
     Demo.URL_query Demo.accept_all backend Demo.punctual).
Local Abbreviation tx_template := "https://b/tx/{api_token}/list".
Local Abbreviation demo_ask template backend :=
  (ask "auth" "https://b/user/{api_token}" template "https://b/evse/{api_token}"
     "https://b/energi/{api_token}" Demo.accept_all backend Demo.punctual
     Demo.plain_only).
Local Abbreviation after_request :=
  (snd (_request "auth" (Demo.answering VNone) Demo.punctual "https://b/u" "GET" None st0)).

Lemma request_returns_decoded_body_witness :
  session_open "auth" "https://b/u" None st0 = true
  /\ answer "auth" (Demo.answering (VStr "x")) "https://b/u" "GET" None st0
     = Resolves 1 (Ok {| status := 200; body := Resolves 1 (Ok (VStr "x")) |})
  /\ fst (_request "auth" (Demo.answering (VStr "x")) Demo.punctual "https://b/u" "GET" None st0) = Ok (VStr "x")
  /\ now (snd (snd (_request "auth" (Demo.answering (VStr "x")) Demo.punctual "https://b/u" "GET" None st0))) = 2.
Proof.
  split; [reflexivity|]. split; [reflexivity|].
  destruct (request_returns_decoded_body "auth" (Demo.answering (VStr "x")) Demo.punctual "https://b/u" "GET" None
              st0 1 1 {| status := 200; body := Resolves 1 (Ok (VStr "x")) |} (VStr "x")
              eq_refl eq_refl eq_refl eq_refl eq_refl) as (H1 & H2 & _).
  split; [exact H1|exact H2].
Defined.

Lemma request_bad_status_is_not_read_witness :
  session_open "auth" "https://b/u" None st0 = true
  /\ fst (_request "auth" not_found Demo.punctual "https://b/u" "GET" None st0) = Raise (ClientResponseError 404)
  /\ now (snd (snd (_request "auth" not_found Demo.punctual "https://b/u" "GET" None st0))) = 3.
Proof.
  split; [reflexivity|].
  exact (request_bad_status_is_not_read "auth" not_found Demo.punctual "https://b/u" "GET" None st0 3
           {| status := 404; body := Pending |} eq_refl eq_refl eq_refl
           ltac:(simpl; lia)).
Defined.

Lemma request_after_close_fails_witness :
  _close_session (fst after_request) = true
  /\ session (fst after_request) = Some 0%nat
  /\ sessions (snd after_request) !! 0%nat = Some {| closed := false |}
  /\ fst (_request "auth" (Demo.answering VNone) Demo.punctual "https://b/u2" "GET" None
            (snd (close (fst after_request, snd after_request))))
     = Raise (RuntimeError "Session is closed").
Proof.
  do 3 (split; [reflexivity|]).
  exact (proj1 (request_after_close_fails "auth" (Demo.answering VNone) Demo.punctual "https://b/u2" "GET" None
                  (fst after_request) (snd after_request) 0%nat
                  eq_refl eq_refl eq_refl)).
Defined.

Lemma request_without_time_fails_where_it_waits_witness :
  request_timeout (fst (Clever_new 0 None, Demo.w0)) <= 0
  /\ session_open "auth" "https://b/u" None (Clever_new 0 None, Demo.w0) = true
  /\ suspends (answer "auth" (Demo.answering VNone) "https://b/u" "GET" None
                 (Clever_new 0 None, Demo.w0)) = true
  /\ fst (_request "auth" (Demo.answering VNone) Demo.punctual "https://b/u" "GET" None
            (Clever_new 0 None, Demo.w0))
     = Raise (CleverConnectionError timeout_msg).
Proof.
  split; [simpl; lia|]. split; [reflexivity|]. split; [reflexivity|].
  apply (proj1 (request_without_time_fails_where_it_waits "auth" (Demo.answering VNone)
                  Demo.punctual "https://b/u" "GET" None (Clever_new 0 None, Demo.w0)
                  ltac:(simpl; lia) eq_refl)).
  reflexivity.
Defined.

Lemma sessions_created_at_most_once_witness :
  session (fst (Clever_new 10 (Some 0%nat), Demo.w1)) = Some 0%nat
  /\ creations (events (snd (demo_run Demo.silent
                               [Call_request "https://b/u" "GET" None; Call_close;
                                Call_send_auth_email "me@x.dk"]
                               (Clever_new 10 (Some 0%nat), Demo.w1))))
     = creations (events Demo.w1).
Proof.
  split; [reflexivity|].
  exact (proj1 (proj2 (sessions_created_at_most_once "auth" "https://b/send" verify_url
                         "https://b/secret" "https://b/token" Demo.URL_query
                         Demo.accept_all Demo.silent Demo.punctual
                         [Call_request "https://b/u" "GET" None; Call_close;
                          Call_send_auth_email "me@x.dk"]
                         (Clever_new 10 (Some 0%nat), Demo.w1))
                  0%nat eq_refl)).
Defined.

Lemma requests_share_session_and_header_witness :
  (forall e, In e (events (snd st0)) -> is_request e = false)
  /\ session (fst (demo_run Demo.silent
                     [Call_send_auth_email "me@x.dk"; Call_close;
                      Call_request "https://b/u" "POST" (Some [("k", VInt 1)])] st0))
     = Some 0%nat.
Proof.
  assert (Hnone : forall e, In e (events (snd st0)) -> is_request e = false).
  { intros e H. destruct H. }
  split; [exact Hnone|].
  refine (proj2 (requests_share_session_and_header "auth" "https://b/send" verify_url
                   "https://b/secret" "https://b/token" Demo.URL_query Demo.accept_all
                   Demo.silent Demo.punctual
                   [Call_send_auth_email "me@x.dk"; Call_close;
                    Call_request "https://b/u" "POST" (Some [("k", VInt 1)])] st0 Hnone
                   0%nat "POST" "https://b/u" (Some [("k", VInt 1)])
                   [("authorization", VStr "auth")] _)).
  vm_compute. auto 10.
Defined.

Lemma scope_releases_the_session_it_made_witness :
  session (Clever_new 10 None) = None
  /\ is_closed 0 (snd (snd (async_with (fun _ => _request "auth" Demo.silent Demo.punctual "https://b/u" "GET" None)
                              st0))) = true
  /\ releases 0 (events (snd (snd (async_with
                                     (fun _ => _request "auth" Demo.silent Demo.punctual "https://b/u" "GET" None)
                                     st0)))) = 1%nat.
Proof.
  split; [reflexivity|].
  destruct (scope_releases_the_session_it_made "auth" Demo.silent Demo.punctual "https://b/u" "GET" None
              (Clever_new 10 None) Demo.w0 eq_refl) as (_ & _ & H1 & _ & H2).
  split; [exact H1|exact H2].
Defined.

Lemma auth_steps_send_their_arguments_witness :
  secret_code_of Demo.URL_query link = Ok "s3cr3t"
  /\ events (snd (snd (verify_link "auth" verify_url Demo.URL_query Demo.accept_all
                         Demo.silent Demo.punctual link "me&you@x.dk" st0)))
     = [EvNewSession 0;
        EvRequest 0 "GET" "https://b/verify?token=s3cr3t&email=me&you@x.dk" None
          [("authorization", VStr "auth")]].
Proof.
  split; [reflexivity|].
  exact (proj1 (proj2 (auth_steps_send_their_arguments "auth" "https://b/send" verify_url
                         "https://b/secret" "https://b/token" Demo.URL_query
                         Demo.accept_all Demo.silent Demo.punctual (Clever_new 10 None) Demo.w0))
           link "me&you@x.dk" "s3cr3t" eq_refl).
Defined.

Lemma send_auth_email_checks_nothing_witness :
  fst (_request "auth" (Demo.answering (VDict [("data", VBool false)])) Demo.punctual
         "https://b/send?email=me@x.dk" METH_GET None st0)
  = Ok (VDict [("data", VBool false)])
  /\ fst (send_auth_email "auth" "https://b/send" Demo.accept_all
            (Demo.answering (VDict [("data", VBool false)])) Demo.punctual "me@x.dk" st0)
     = Ok {| class_of := SendEmail; fields := [("data", VBool false)] |}.
Proof.
  split; [reflexivity|].
  exact (proj1 (proj2 (send_auth_email_checks_nothing "auth" "https://b/send"
                         Demo.accept_all (Demo.answering (VDict [("data", VBool false)])) Demo.punctual
                         "me@x.dk" (VDict [("data", VBool false)]) st0
                         (snd (_request "auth"
                                 (Demo.answering (VDict [("data", VBool false)])) Demo.punctual
                                 "https://b/send?email=me@x.dk" METH_GET None st0))
                         eq_refl))
           [("data", VBool false)] eq_refl eq_refl).
Defined.

Local Abbreviation with_server_code :=
  [("secret_code", VStr "from-server"); ("data", VDict [("result", VStr "Verified")])].

Lemma verify_link_keeps_the_response_witness :
  data_entry with_server_code "result" = Some (VStr "Verified")
  /\ exists m, fst (run_verify_link with_server_code) = Ok m
               /\ attr m "secret_code" = VStr "s3cr3t".
Proof.
  split; [reflexivity|].
  destruct (verify_link_keeps_the_response "auth" verify_url Demo.URL_query
              Demo.accept_all (Demo.answering (VDict with_server_code)) Demo.punctual link "me@x.dk"
              "s3cr3t" with_server_code st0
              (snd (_request "auth" (Demo.answering (VDict with_server_code)) Demo.punctual
                      "https://b/verify?token=s3cr3t&email=me@x.dk" METH_GET None st0))
              eq_refl eq_refl eq_refl eq_refl) as (m & H1 & _ & H2 & _).
  exists m. split; [exact H1|exact H2].
Defined.

Lemma verify_link_on_odd_responses_witness :
  data_entry [("data", VDict [("result", VInt 7)])] "result" = Some (VInt 7)
  /\ fst (run_verify_link [("data", VDict [("result", VInt 7)])])
     = Raise (CleverError (VInt 7)).
Proof.
  split; [reflexivity|].
  apply (proj1 (verify_link_on_odd_responses "auth" verify_url Demo.URL_query
                  Demo.accept_all
                  (Demo.answering (VDict [("data", VDict [("result", VInt 7)])])) Demo.punctual
                  link "me@x.dk" "s3cr3t" [("data", VDict [("result", VInt 7)])] st0
                  (snd (_request "auth"
                          (Demo.answering (VDict [("data", VDict [("result", VInt 7)])])) Demo.punctual
                          "https://b/verify?token=s3cr3t&email=me@x.dk" METH_GET None st0))
                  eq_refl eq_refl eq_refl));
    [reflexivity|discriminate].
Defined.

Lemma obtain_user_secret_on_odd_responses_witness :
  dict_get "userSecret" [("userSecret", VStr "null")] = Some (VStr "null")
  /\ fst (run_obtain_user_secret [("data", VDict [("userSecret", VStr "null")])])
     = Raise (KeyError "verificationResponse").
Proof.
  split; [reflexivity|].
  exact (proj1 (proj2 (obtain_user_secret_on_odd_responses "auth" "https://b/secret"
                         Demo.accept_all
                         (Demo.answering
                            (VDict [("data", VDict [("userSecret", VStr "null")])])) Demo.punctual
                         "me@x.dk" "Ada" "Lovelace" "s3cr3t"
                         [("data", VDict [("userSecret", VStr "null")])] st0
                         (snd (_request "auth"
                                 (Demo.answering
                                    (VDict [("data", VDict [("userSecret", VStr "null")])])) Demo.punctual
                                 "https://b/secret" METH_POST
                                 (Some (user_secret_payload "me@x.dk" "Ada" "Lovelace"
                                          "s3cr3t")) st0))
                         eq_refl eq_refl))
           [("userSecret", VStr "null")] eq_refl eq_refl eq_refl).
Defined.

Lemma queries_send_the_token_as_it_is_witness :
  brace_free "https://b/tx/" = true
  /\ events (snd (snd (demo_ask tx_template Demo.silent (Get_transactions None)
                         ({| base := Clever_new 10 None; api_token := Some "a b&c" |},
                          Demo.w0))))
     = [EvNewSession 0;
        EvRequest 0 "GET" "https://b/tx/a b&c/list" None [("authorization", VStr "auth")]].
Proof.
  split; [reflexivity|].
  exact (proj1 (queries_send_the_token_as_it_is "auth" "https://b/user/{api_token}"
                  tx_template "https://b/evse/{api_token}" "https://b/energi/{api_token}"
                  Demo.accept_all Demo.silent Demo.punctual Demo.plain_only (Get_transactions None)
                  "https://b/tx/" "/list" "/list" "a b&c"
                  {| base := Clever_new 10 None; api_token := Some "a b&c" |} Demo.w0
                  eq_refl eq_refl eq_refl eq_refl)).
Defined.

Lemma queries_return_the_parsed_response_witness :
  format Demo.plain_only "https://b/evse/{api_token}" (Some "tok") = Ok "https://b/evse/tok"
  /\ fst (demo_ask tx_template (Demo.answering (VDict [("data", VList [])])) Get_evse_info
            ({| base := Clever_new 10 None; api_token := Some "tok" |}, Demo.w0))
     = Ok {| class_of := EvseInfo; fields := [("data", VList [])] |}.
Proof.
  split; [reflexivity|].
  exact (proj1 (proj2 (proj2
           (queries_return_the_parsed_response "auth" "https://b/user/{api_token}"
              tx_template "https://b/evse/{api_token}" "https://b/energi/{api_token}"
              Demo.accept_all (Demo.answering (VDict [("data", VList [])])) Demo.punctual Demo.plain_only Get_evse_info
              "https://b/evse/tok" (VDict [("data", VList [])])
              ({| base := Clever_new 10 None; api_token := Some "tok" |}, Demo.w0)
              (snd (_request "auth" (Demo.answering (VDict [("data", VList [])])) Demo.punctual
                      "https://b/evse/tok" METH_GET None (Clever_new 10 None, Demo.w0)))
              eq_refl eq_refl)))
           [("data", VList [])] eq_refl eq_refl).
Defined.

Lemma url_errors_send_nothing_witness :
  format Demo.plain_only "https://b/tx/{token}" (Some "tok") = Raise (KeyError "token")
  /\ demo_ask "https://b/tx/{token}" Demo.silent (Get_transactions None)
       ({| base := Clever_new 10 None; api_token := Some "tok" |}, Demo.w0)
     = (Raise (KeyError "token"),
        ({| base := Clever_new 10 None; api_token := Some "tok" |}, Demo.w0)).
Proof.
  split; [reflexivity|].
  exact (proj1 (url_errors_send_nothing "auth" verify_url "https://b/user/{api_token}"
                  "https://b/tx/{token}" "https://b/evse/{api_token}"
                  "https://b/energi/{api_token}" Demo.URL_query Demo.accept_all
                  Demo.silent Demo.punctual Demo.plain_only)
           (Get_transactions None)
           ({| base := Clever_new 10 None; api_token := Some "tok" |}, Demo.w0)
           (KeyError "token") eq_refl).
Defined.

Lemma steps_pass_request_errors_on_witness :
  fst (_request "auth" Demo.silent Demo.punctual "https://b/send?email=me@x.dk" METH_GET None st0)
  = Raise (CleverConnectionError timeout_msg)
  /\ fst (send_auth_email "auth" "https://b/send" Demo.accept_all Demo.silent Demo.punctual
            "me@x.dk" st0)
     = Raise (CleverConnectionError timeout_msg).
Proof.
  split; [reflexivity|].
  exact (f_equal fst
           (proj1 (steps_pass_request_errors_on "auth" "https://b/send" verify_url
                     "https://b/secret" "https://b/token" "https://b/user/{api_token}"
                     tx_template "https://b/evse/{api_token}"
                     "https://b/energi/{api_token}" Demo.URL_query Demo.accept_all
                     Demo.silent Demo.punctual Demo.plain_only (CleverConnectionError timeout_msg))
              "me@x.dk" st0
              (snd (_request "auth" Demo.silent Demo.punctual "https://b/send?email=me@x.dk" METH_GET
                      None st0))
              eq_refl)).
Defined.
